(** * Sample instrumented HTTP service (main.go): handlers, work simulator
      and bootstrap, embedded as state-passing functions over an explicit
      world (random source, clock, span store, metric emissions, log). *)

From Stdlib Require Import ZArith QArith Lia List Bool String Ascii.
From stdpp Require Import base list.
Import ListNotations.

Local Open Scope string_scope.
Local Open Scope Z_scope.

(** ** float64 values that the service computes

    Every finite non-negative double is a dyadic rational [mant * 2^expo].
    The only float64 operations in main.go are [rand.Float64()], products
    with the constants 100 and 1024, and printing with the verb [%.2f]. *)

Record float64 := mkF64 { mant : Z; expo : Z }.

(** Round [m / 2^s] to the nearest integer, ties to even (IEEE 754
    roundTiesToEven, also the rule of strconv's decimal rounding). *)
Definition rne (m s : Z) : Z :=
  if s <=? 0 then m
  else
    let q := m / 2 ^ s in
    let r := m mod 2 ^ s in
    let half := 2 ^ (s - 1) in
    if r <? half then q
    else if half <? r then q + 1
    else if Z.even q then q else q + 1.

(** Bit length of a non-negative integer. *)
Definition bitlen (m : Z) : Z := if m =? 0 then 0 else Z.log2 m + 1.

(** Rounding of the exact dyadic value [m * 2^e], m >= 0, to the 53-bit
    significand of a double; when rounding carries into a 54th bit the
    significand is renormalised. The exponent range is not reached by the
    values of this program. *)
Definition round53 (m e : Z) : float64 :=
  let n := bitlen m in
  if n <=? 53 then mkF64 m e
  else
    let s := n - 53 in
    let r := rne m s in
    if r =? 2 ^ 53 then mkF64 (2 ^ 52) (e + s + 1)
    else mkF64 r (e + s).

(** float64(i) for a non-negative integer. *)
Definition float64_of_int (i : Z) : float64 := round53 i 0.

(** [x / (1 << n)]: a division by a power of two is exact. *)
Definition fdiv_pow2 (x : float64) (n : Z) : float64 :=
  mkF64 (mant x) (expo x - n).

(** [x * y] on float64: the exact product, rounded. *)
Definition fmul (x y : float64) : float64 :=
  round53 (mant x * mant y) (expo x + expo y).

(** The constants 100 and 1024 as doubles. *)
Definition f100 : float64 := mkF64 25 2.
Definition f1024 : float64 := mkF64 1 10.

(** Exact rational value of a double. *)
Definition F2Q (x : float64) : Q :=
  if 0 <=? expo x then inject_Z (mant x * 2 ^ expo x)
  else Qmake (mant x) (Z.to_pos (2 ^ (- expo x))).

(** ** strconv / fmt: decimal printing *)

(** The double quote character, code 34. *)
Definition dquote : string := String (ascii_of_nat 34) EmptyString.

Definition digit_char (d : Z) : ascii :=
  ascii_of_nat (48 + Z.to_nat d).

(** formatBits of strconv: emit [u mod 10] while [u >= 10], then the last
    digit. The fuel bounds the number of digits. *)
Fixpoint digits_fuel (fuel : nat) (u : Z) (acc : string) : string :=
  match fuel with
  | O => acc
  | S f =>
      let acc' := String (digit_char (u mod 10)) acc in
      if u <? 10 then acc' else digits_fuel f (u / 10) acc'
  end.

Definition utoa (u : Z) : string :=
  digits_fuel (S (Z.to_nat (Z.log2 u))) u EmptyString.

(** strconv.Itoa, and the verb %d of fmt on an int. *)
Definition Itoa (n : Z) : string :=
  if n <? 0 then String "-" (utoa (- n)) else utoa n.

(** The value of a non-negative double in hundredths, rounded half to even
    on the exact binary value: what [%.2f] prints, without the point. *)
Definition hundredths (x : float64) : Z :=
  if 0 <=? expo x then mant x * 2 ^ expo x * 100
  else rne (mant x * 100) (- expo x).

(** fmt's [%.2f] on a non-negative double. *)
Definition format2 (x : float64) : string :=
  let h := hundredths x in
  utoa (h / 100) ++ "." ++
  String (digit_char (h mod 100 / 10)) (String (digit_char (h mod 10)) EmptyString).

(** ** Telemetry data model *)

(** attribute.KeyValue: the constructors used in main.go. *)
Inductive AttrValue :=
| VString (s : string)
| VInt (n : Z)
| VBool (b : bool)
| VFloat64 (x : float64).

Definition KeyValue : Type := string * AttrValue.

(** A span of the SDK: name, parent, attributes in the order they were
    set, and whether End was called (an ended span no longer records). *)
Record Span := mkSpan {
  span_name : string;
  span_parent : option nat;
  span_attrs : list KeyValue;
  span_ended : bool
}.

(** trace.Span handle: the index of a recording span in the store, or the
    no-op span that [trace.SpanFromContext] gives for a context without one. *)
Definition SpanRef : Type := option nat.

(** context.Context, as far as the handlers use it: the current span. *)
Record Context := mkCtx { ctx_span : SpanRef }.

Definition context_Background : Context := mkCtx None.

(** The two instruments created by initTelemetry (lines 85-99). *)
Record Instrument := mkInstrument {
  inst_name : string;
  inst_description : string
}.

Definition requestCounter : Instrument :=
  mkInstrument "http_requests_total" "Total number of HTTP requests".

Definition requestDuration : Instrument :=
  mkInstrument "http_request_duration_seconds" "HTTP request duration in seconds".

(** What the meter receives: [Add] on an Int64Counter, [Record] on a
    Float64Histogram. The histogram value is [time.Since(start).Seconds()];
    the elapsed time is kept in nanoseconds. *)
Inductive MetricEvent :=
| CounterAdd (i : Instrument) (incr : Z) (attrs : list KeyValue)
| HistRecord (i : Instrument) (elapsed_ns : Z) (attrs : list KeyValue).

(** Everything outside a single handler call that the handlers read or
    write: the math/rand source (its answers in call order and a cursor),
    the monotonic clock in nanoseconds, the span store, the metric
    emissions and the log output. The clock moves by time.Sleep only: the
    time the other statements take is not modelled. *)
Record World := mkWorld {
  rand_src : nat -> Z;
  rand_pos : nat;
  clock : Z;
  spans : list Span;
  metric_log : list MetricEvent;
  log_lines : list string
}.

(** ** State monad over the world *)

Definition M (A : Type) : Type := World -> A * World.

Definition ret {A} (a : A) : M A := fun w => (a, w).

Definition bind {A B} (m : M A) (k : A -> M B) : M B :=
  fun w => let '(a, w') := m w in k a w'.

Declare Scope go_scope.
Delimit Scope go_scope with go.
Notation "x <- c1 ;; c2" := (bind c1 (fun x => c2))
  (at level 100, c1 at next level, right associativity) : go_scope.
Notation "c1 ;; c2" := (bind c1 (fun _ => c2))
  (at level 100, right associativity) : go_scope.
Local Open Scope go_scope.

(** *** math/rand *)

(** The next answer of the source, advancing the cursor. *)
Definition rand_next : M Z := fun w =>
  (rand_src w (rand_pos w),
   mkWorld (rand_src w) (S (rand_pos w)) (clock w) (spans w)
           (metric_log w) (log_lines w)).

(** rand.Intn(n), n > 0: a value of [0, n). *)
Definition rand_Intn (n : Z) : M Z :=
  r <- rand_next ;; ret (r mod n).

(** rand.Float64() of math/rand computes [float64(r.Int63()) / (1 << 63)]
    and draws again while the quotient is 1. The answer of the source is
    the 63-bit integer that is accepted: one of [0, 2^63 - 512), since the
    512 largest ones round to 2^63. *)
Definition Float64_of (r : Z) : float64 :=
  fdiv_pow2 (float64_of_int (r mod (2 ^ 63 - 512))) 63.

Definition rand_Float64 : M float64 :=
  r <- rand_next ;; ret (Float64_of r).

(** *** time *)

Definition Millisecond : Z := 1000000.

(** int64 wrap-around of a time.Duration. *)
Definition wrap64 (x : Z) : Z := (x + 2 ^ 63) mod 2 ^ 64 - 2 ^ 63.

Definition Duration_mul (a b : Z) : Z := wrap64 (a * b).

(** Duration.Milliseconds: integer division truncating toward zero. *)
Definition Duration_Milliseconds (d : Z) : Z := Z.quot d Millisecond.

Definition time_Now : M Z := fun w => (clock w, w).

Definition time_Since (start : Z) : M Z := fun w => (clock w - start, w).

(** time.Sleep(d) returns at once for d <= 0. *)
Definition time_Sleep (d : Z) : M unit := fun w =>
  (tt, mkWorld (rand_src w) (rand_pos w) (clock w + Z.max d 0) (spans w)
               (metric_log w) (log_lines w)).

(** *** log *)

Definition log_Printf (line : string) : M unit := fun w =>
  (tt, mkWorld (rand_src w) (rand_pos w) (clock w) (spans w)
               (metric_log w) (log_lines w ++ [line])).

(** *** trace *)

Definition set_spans (f : list Span -> list Span) : M unit := fun w =>
  (tt, mkWorld (rand_src w) (rand_pos w) (clock w) (f (spans w))
               (metric_log w) (log_lines w)).

(** tracer.Start(ctx, name): a new recording span whose parent is the span
    of [ctx]; the returned context carries the new span. *)
Definition tracer_Start (ctx : Context) (name : string) : M (Context * SpanRef) :=
  fun w =>
    let id := length (spans w) in
    ((mkCtx (Some id), Some id),
     mkWorld (rand_src w) (rand_pos w) (clock w)
             (spans w ++ [mkSpan name (ctx_span ctx) [] false])
             (metric_log w) (log_lines w)).

Definition trace_SpanFromContext (ctx : Context) : SpanRef := ctx_span ctx.

Definition add_attrs (kvs : list KeyValue) (s : Span) : Span :=
  if span_ended s then s
  else mkSpan (span_name s) (span_parent s) (span_attrs s ++ kvs) false.

Definition end_span (s : Span) : Span :=
  mkSpan (span_name s) (span_parent s) (span_attrs s) true.

(** span.SetAttributes(kvs...): nothing on the no-op span or after End. *)
Definition span_SetAttributes (sp : SpanRef) (kvs : list KeyValue) : M unit :=
  match sp with
  | None => ret tt
  | Some id => set_spans (alter (add_attrs kvs) id)
  end.

(** span.End() *)
Definition span_End (sp : SpanRef) : M unit :=
  match sp with
  | None => ret tt
  | Some id => set_spans (alter end_span id)
  end.

(** *** metric *)

Definition emit (e : MetricEvent) : M unit := fun w =>
  (tt, mkWorld (rand_src w) (rand_pos w) (clock w) (spans w)
               (metric_log w ++ [e]) (log_lines w)).

Definition counter_Add (c : Instrument) (ctx : Context) (incr : Z)
    (attrs : list KeyValue) : M unit :=
  emit (CounterAdd c incr attrs).

Definition histogram_Record (h : Instrument) (ctx : Context) (elapsed_ns : Z)
    (attrs : list KeyValue) : M unit :=
  emit (HistRecord h elapsed_ns attrs).

(** *** net/http *)

Record Request := mkRequest {
  r_Method : string;
  r_Path : string;
  r_Context : Context
}.

(** http.ResponseWriter: the header map the handler edits, the status and
    the header snapshot taken by the first WriteHeader, and the body. *)
Record ResponseWriter := mkRW {
  rw_header : list (string * string);
  rw_sent : option (Z * list (string * string));
  rw_body : string
}.

Definition newRecorder : ResponseWriter := mkRW [] None EmptyString.

Fixpoint header_set (k v : string) (h : list (string * string)) :
    list (string * string) :=
  match h with
  | [] => [(k, v)]
  | (k', v') :: t =>
      if String.eqb k k' then (k, v) :: t else (k', v') :: header_set k v t
  end.

Fixpoint header_get (k : string) (h : list (string * string)) : option string :=
  match h with
  | [] => None
  | (k', v) :: t => if String.eqb k k' then Some v else header_get k t
  end.

(** w.Header().Set(k, v) *)
Definition Header_Set (k v : string) (rw : ResponseWriter) : ResponseWriter :=
  mkRW (header_set k v (rw_header rw)) (rw_sent rw) (rw_body rw).

(** w.WriteHeader(code): only the first call counts. *)
Definition WriteHeader (code : Z) (rw : ResponseWriter) : ResponseWriter :=
  match rw_sent rw with
  | Some _ => rw
  | None => mkRW (rw_header rw) (Some (code, rw_header rw)) (rw_body rw)
  end.

Definition StatusOK : Z := 200.
Definition StatusInternalServerError : Z := 500.

(** w.Write(b): an implicit WriteHeader(200) if none was made. *)
Definition Write (b : string) (rw : ResponseWriter) : ResponseWriter :=
  let rw' := WriteHeader StatusOK rw in
  mkRW (rw_header rw') (rw_sent rw') (rw_body rw' ++ b).

(** What the client receives. *)
Record Response := mkResponse {
  resp_status : Z;
  resp_header : list (string * string);
  resp_body : string
}.

Definition response_of (rw : ResponseWriter) : Response :=
  match rw_sent rw with
  | Some (code, h) => mkResponse code h (rw_body rw)
  | None => mkResponse StatusOK (rw_header rw) (rw_body rw)
  end.

(** ** The program *)

(** simulateWork (main.go 104-121). *)
Definition simulateWork (ctx : Context) : M unit :=
  let span := trace_SpanFromContext ctx in
  n <- rand_Intn 500 ;;
  let workDuration := Duration_mul n Millisecond in
  time_Sleep workDuration ;;
  span_SetAttributes span
    [("work.type", VString "processing");
     ("work.duration_ms", VInt (Duration_Milliseconds workDuration))] ;;
  e <- rand_Intn 10 ;;
  if e =? 0 then
    span_SetAttributes span [("error", VBool true)] ;;
    log_Printf "Simulated error occurred"
  else ret tt.

(** healthHandler (main.go 123-143). The deferred span.End() runs last. *)
Definition healthHandler (w : ResponseWriter) (r : Request) : M ResponseWriter :=
  cs <- tracer_Start (r_Context r) "health_check" ;;
  let '(ctx, span) := cs in
  start <- time_Now ;;
  counter_Add requestCounter ctx 1
    [("method", VString (r_Method r));
     ("endpoint", VString "/health");
     ("status", VString "200")] ;;
  let w := WriteHeader StatusOK w in
  let w := Write "OK" w in
  duration <- time_Since start ;;
  histogram_Record requestDuration ctx duration
    [("method", VString (r_Method r));
     ("endpoint", VString "/health")] ;;
  span_End span ;;
  ret w.

(** workHandler (main.go 145-184). *)
Definition workHandler (w : ResponseWriter) (r : Request) : M ResponseWriter :=
  cs <- tracer_Start (r_Context r) "do_work" ;;
  let '(ctx, span) := cs in
  start <- time_Now ;;
  u <- rand_Intn 100 ;;
  q <- rand_Intn 10000 ;;
  span_SetAttributes span
    [("user.id", VString ("user-" ++ Itoa u));
     ("request.id", VString ("req-" ++ Itoa q))] ;;
  ccs <- tracer_Start ctx "nested_operation" ;;
  let '(childCtx, childSpan) := ccs in
  simulateWork childCtx ;;
  span_End childSpan ;;
  d <- rand_Intn 20 ;;
  ws <- (if d =? 0 then
           let w := WriteHeader StatusInternalServerError w in
           let w := Write "Internal Server Error" w in
           span_SetAttributes span [("error", VBool true)] ;;
           ret (w, "500")
         else
           let w := WriteHeader StatusOK w in
           let w := Write "Work completed successfully" w in
           ret (w, "200")) ;;
  let '(w, status) := ws in
  counter_Add requestCounter ctx 1
    [("method", VString (r_Method r));
     ("endpoint", VString "/work");
     ("status", VString status)] ;;
  duration <- time_Since start ;;
  histogram_Record requestDuration ctx duration
    [("method", VString (r_Method r));
     ("endpoint", VString "/work")] ;;
  span_End span ;;
  ret w.

(** The format string of line 209 with its two [%.2f] verbs filled in. *)
Definition metrics_body (cpuUsage memoryUsage : float64) : string :=
  "{" ++ dquote ++ "cpu_usage" ++ dquote ++ ": " ++ format2 cpuUsage ++
  ", " ++ dquote ++ "memory_usage" ++ dquote ++ ": " ++ format2 memoryUsage ++ "}".

(** metricsHandler (main.go 186-216). *)
Definition metricsHandler (w : ResponseWriter) (r : Request) : M ResponseWriter :=
  cs <- tracer_Start (r_Context r) "metrics" ;;
  let '(ctx, span) := cs in
  start <- time_Now ;;
  f1 <- rand_Float64 ;;
  let cpuUsage := fmul f1 f100 in
  f2 <- rand_Float64 ;;
  let memoryUsage := fmul (fmul (fmul f2 f1024) f1024) f1024 in
  span_SetAttributes span
    [("system.cpu.usage", VFloat64 cpuUsage);
     ("system.memory.usage", VFloat64 memoryUsage)] ;;
  counter_Add requestCounter ctx 1
    [("method", VString (r_Method r));
     ("endpoint", VString "/metrics");
     ("status", VString "200")] ;;
  let w := Header_Set "Content-Type" "application/json" w in
  let w := WriteHeader StatusOK w in
  let w := Write (metrics_body cpuUsage memoryUsage) w in
  duration <- time_Since start ;;
  histogram_Record requestDuration ctx duration
    [("method", VString (r_Method r));
     ("endpoint", VString "/metrics")] ;;
  span_End span ;;
  ret w.

(** ** Reading the /metrics body back: JSON objects with numeric members

    The grammar is that of RFC 8259 restricted to one flat object whose
    member values are numbers without exponent; keys have no escapes. *)

Record Number := mkNumber {
  num_neg : bool;
  num_digits : Z;      (* all digits read, as one integer *)
  num_scale : nat      (* how many of them follow the point *)
}.

Definition number_value (n : Number) : Q :=
  let q := Qmake (num_digits n) (Pos.of_nat (Nat.pow 10 (num_scale n))) in
  if num_neg n then Qopp q else q.

Inductive PState :=
| POpen
| PFirstKey
| PKey
| PInKey (k : string)
| PColon (k : string)
| PValue (k : string)
| PMinus (k : string)
| PZero (k : string) (neg : bool)
| PInt (k : string) (neg : bool) (acc : Z)
| PDot (k : string) (neg : bool) (acc : Z)
| PFrac (k : string) (neg : bool) (acc : Z) (scale : nat)
| PAfter
| PDone
| PFail.

Definition Members : Type := list (string * Number).

Definition is_ws (c : ascii) : bool :=
  let n := nat_of_ascii c in
  Nat.eqb n 32 || Nat.eqb n 9 || Nat.eqb n 10 || Nat.eqb n 13.

Definition digit_of (c : ascii) : option Z :=
  let n := Z.of_nat (nat_of_ascii c) in
  if (48 <=? n) && (n <=? 57) then Some (n - 48) else None.

Definition is_char (c : ascii) (code : nat) : bool :=
  Nat.eqb (nat_of_ascii c) code.

(** After the last character of a number: a separator, the end of the
    object, or white space. *)
Definition end_value (k : string) (v : Number) (ms : Members) (c : ascii) :
    PState * Members :=
  if is_char c 44 then (PKey, (ms ++ [(k, v)])%list)
  else if is_char c 125 then (PDone, (ms ++ [(k, v)])%list)
  else if is_ws c then (PAfter, (ms ++ [(k, v)])%list)
  else (PFail, ms).

Definition step (st : PState) (ms : Members) (c : ascii) : PState * Members :=
  match st with
  | POpen =>
      if is_ws c then (POpen, ms)
      else if is_char c 123 then (PFirstKey, ms) else (PFail, ms)
  | PFirstKey =>
      if is_ws c then (PFirstKey, ms)
      else if is_char c 34 then (PInKey EmptyString, ms)
      else if is_char c 125 then (PDone, ms) else (PFail, ms)
  | PKey =>
      if is_ws c then (PKey, ms)
      else if is_char c 34 then (PInKey EmptyString, ms) else (PFail, ms)
  | PInKey k =>
      if is_char c 34 then (PColon k, ms)
      else if is_char c 92 then (PFail, ms)
      else if Nat.ltb (nat_of_ascii c) 32 then (PFail, ms)
      else (PInKey (k ++ String c EmptyString), ms)
  | PColon k =>
      if is_ws c then (PColon k, ms)
      else if is_char c 58 then (PValue k, ms) else (PFail, ms)
  | PValue k =>
      if is_ws c then (PValue k, ms)
      else if is_char c 45 then (PMinus k, ms)
      else match digit_of c with
           | Some d => if d =? 0 then (PZero k false, ms) else (PInt k false d, ms)
           | None => (PFail, ms)
           end
  | PMinus k =>
      match digit_of c with
      | Some d => if d =? 0 then (PZero k true, ms) else (PInt k true d, ms)
      | None => (PFail, ms)
      end
  | PZero k neg =>
      if is_char c 46 then (PDot k neg 0, ms)
      else end_value k (mkNumber neg 0 0) ms c
  | PInt k neg acc =>
      match digit_of c with
      | Some d => (PInt k neg (acc * 10 + d), ms)
      | None =>
          if is_char c 46 then (PDot k neg acc, ms)
          else end_value k (mkNumber neg acc 0) ms c
      end
  | PDot k neg acc =>
      match digit_of c with
      | Some d => (PFrac k neg (acc * 10 + d) 1, ms)
      | None => (PFail, ms)
      end
  | PFrac k neg acc scale =>
      match digit_of c with
      | Some d => (PFrac k neg (acc * 10 + d) (S scale), ms)
      | None => end_value k (mkNumber neg acc scale) ms c
      end
  | PAfter =>
      if is_ws c then (PAfter, ms)
      else if is_char c 44 then (PKey, ms)
      else if is_char c 125 then (PDone, ms) else (PFail, ms)
  | PDone => if is_ws c then (PDone, ms) else (PFail, ms)
  | PFail => (PFail, ms)
  end.

Fixpoint run (st : PState) (ms : Members) (s : string) : PState * Members :=
  match s with
  | EmptyString => (st, ms)
  | String c s' => let '(st', ms') := step st ms c in run st' ms' s'
  end.

Definition parse_object (s : string) : option Members :=
  match run POpen [] s with
  | (PDone, ms) => Some ms
  | _ => None
  end.

(** ** Routing and start-up *)

Definition Handler : Type := ResponseWriter -> Request -> M ResponseWriter.

(** http.HandleFunc on the default mux: patterns without a method and
    without a trailing slash match that exact path, for every method. *)
Definition Routes : Type := list (string * Handler).

Definition HandleFunc (pattern : string) (h : Handler) (rs : Routes) : Routes :=
  (rs ++ [(pattern, h)])%list.

Fixpoint mux_handler (rs : Routes) (path : string) : option Handler :=
  match rs with
  | [] => None
  | (p, h) :: t => if String.eqb path p then Some h else mux_handler t path
  end.

(** The registrations of main (lines 223-225). *)
Definition registered : Routes :=
  HandleFunc "/metrics" metricsHandler
    (HandleFunc "/work" workHandler
       (HandleFunc "/health" healthHandler [])).

(** http.NotFound, the answer of the mux for any other path. *)
Definition http_NotFound (w : ResponseWriter) : ResponseWriter :=
  let w := Header_Set "Content-Type" "text/plain; charset=utf-8" w in
  let w := Header_Set "X-Content-Type-Options" "nosniff" w in
  let w := WriteHeader 404 w in
  Write ("404 page not found" ++ String (ascii_of_nat 10) EmptyString) w.

(** One request through the mux, on a fresh response writer. *)
Definition ServeHTTP (rs : Routes) (r : Request) : M Response :=
  match mux_handler rs (r_Path r) with
  | Some h => w <- h newRecorder r ;; ret (response_of w)
  | None => ret (response_of (http_NotFound newRecorder))
  end.

(** The requests of a connection, one after the other. *)
Fixpoint serve_all (rs : Routes) (reqs : list Request) : M (list Response) :=
  match reqs with
  | [] => ret []
  | r :: t =>
      resp <- ServeHTTP rs r ;;
      rest <- serve_all rs t ;;
      ret (resp :: rest)
  end.

(** Go errors: an error of a library, or one wrapped by
    [fmt.Errorf(prefix ++ ": %w", err)]. *)
Inductive error :=
| LibError (msg : string)
| Errorf (prefix : string) (cause : error).

Fixpoint error_string (e : error) : string :=
  match e with
  | LibError msg => msg
  | Errorf prefix cause => prefix ++ ": " ++ error_string cause
  end.

(** What the libraries and the operating system answer at start-up: [None]
    is a nil error. ListenAndServe either fails to bind and returns its
    error, or serves and does not return. *)
Record Env := mkEnv {
  env_resource_New : option error;
  env_otlptracehttp_New : option error;
  env_otlpmetrichttp_New : option error;
  env_Int64Counter : option error;
  env_Float64Histogram : option error;
  env_PORT : string;
  env_ListenAndServe : string -> option error
}.

Record Scope := mkScope { scope_name : string; scope_version : string }.

(** The package-level variables of lines 26-31 (nil until assigned) and
    the providers installed in the otel package. *)
Record Globals := mkGlobals {
  g_tracer : option Scope;
  g_meter : option Scope;
  g_requestCounter : option Instrument;
  g_requestDuration : option Instrument;
  g_tracerProvider : bool;
  g_propagator : bool;
  g_meterProvider : bool
}.

Definition zero_globals : Globals :=
  mkGlobals None None None None false false false.

(** initTelemetry (main.go 33-102): the returned error and the globals it
    leaves. An instrument whose construction fails is left nil. *)
Definition initTelemetry (env : Env) (g : Globals) : option error * Globals :=
  match env_resource_New env with
  | Some err => (Some (Errorf "failed to create resource" err), g)
  | None =>
  match env_otlptracehttp_New env with
  | Some err => (Some (Errorf "failed to create trace exporter" err), g)
  | None =>
  let g := mkGlobals (g_tracer g) (g_meter g) (g_requestCounter g)
                     (g_requestDuration g) true true (g_meterProvider g) in
  match env_otlpmetrichttp_New env with
  | Some err => (Some (Errorf "failed to create metric exporter" err), g)
  | None =>
  let g := mkGlobals (Some (mkScope "sample-app" "1.0.0"))
                     (Some (mkScope "sample-app" "1.0.0"))
                     (g_requestCounter g) (g_requestDuration g)
                     (g_tracerProvider g) (g_propagator g) true in
  match env_Int64Counter env with
  | Some err =>
      (Some (Errorf "failed to create counter" err),
       mkGlobals (g_tracer g) (g_meter g) None (g_requestDuration g)
                 (g_tracerProvider g) (g_propagator g) (g_meterProvider g))
  | None =>
  let g := mkGlobals (g_tracer g) (g_meter g) (Some requestCounter)
                     (g_requestDuration g)
                     (g_tracerProvider g) (g_propagator g) (g_meterProvider g) in
  match env_Float64Histogram env with
  | Some err =>
      (Some (Errorf "failed to create histogram" err),
       mkGlobals (g_tracer g) (g_meter g) (g_requestCounter g) None
                 (g_tracerProvider g) (g_propagator g) (g_meterProvider g))
  | None =>
      (None,
       mkGlobals (g_tracer g) (g_meter g) (g_requestCounter g)
                 (Some requestDuration)
                 (g_tracerProvider g) (g_propagator g) (g_meterProvider g))
  end end end end end.

(** How main ends: log.Fatalf prints and calls os.Exit(1); a bound
    listener serves and main does not return. *)
Inductive Outcome :=
| Exited (code : Z)
| Serving (addr : string).

(** The process as main leaves it. *)
Record Process := mkProcess {
  p_globals : Globals;
  p_routes : Routes;
  p_log : list string;
  p_listen : list string     (* addresses ListenAndServe was called with *)
}.

Definition log_Fatalf (line : string) (p : Process) : Outcome * Process :=
  (Exited 1,
   mkProcess (p_globals p) (p_routes p) (p_log p ++ [line]) (p_listen p)).

(** main (main.go 218-236). *)
Definition main (env : Env) : Outcome * Process :=
  let '(err, g) := initTelemetry env zero_globals in
  let p := mkProcess g [] [] [] in
  match err with
  | Some e => log_Fatalf ("Failed to initialize telemetry: " ++ error_string e) p
  | None =>
      let p := mkProcess (p_globals p) registered (p_log p) (p_listen p) in
      let port := env_PORT env in
      let port := if String.eqb port EmptyString then "8080" else port in
      let p := mkProcess (p_globals p) (p_routes p)
                         (p_log p ++ ["Starting server on port " ++ port])
                         (p_listen p) in
      let addr := ":" ++ port in
      let p := mkProcess (p_globals p) (p_routes p) (p_log p)
                         (p_listen p ++ [addr]) in
      match env_ListenAndServe env addr with
      | Some e => log_Fatalf ("Server failed to start: " ++ error_string e) p
      | None => (Serving addr, p)
      end
  end.

(** ** Vocabulary of the statements *)

(** The i-th answer of the random source counted from the cursor: the
    i-th draw of the handler that runs next. *)
Definition draw (w : World) (i : nat) : Z := rand_src w (i + rand_pos w).

(** The world in which that i-th draw is [v] and nothing else differs. *)
Definition with_draw (w : World) (i : nat) (v : Z) : World :=
  mkWorld (fun j => if Nat.eqb j (i + rand_pos w) then v else rand_src w j)
          (rand_pos w) (clock w) (spans w) (metric_log w) (log_lines w).

(** A world without history: no span, no emission, no log line, the clock
    at zero, and the given answers of the random source. *)
Definition fresh_world (src : nat -> Z) : World := mkWorld src 0 0 [] [] [].

(** Among the [n] equally likely values of a draw of [rand.Intn(n)], how
    many satisfy [ev]: the event has probability [favourable n ev / n]. *)
Definition favourable (n : Z) (ev : Z -> bool) : nat :=
  List.length (filter (fun v => ev v = true) (seqZ 0 n)).

(** The metric emissions made on top of those of [w0]. *)
Definition emitted (w0 w1 : World) : list MetricEvent :=
  drop (List.length (metric_log w0)) (metric_log w1).

Definition is_counter_add (name : string) (e : MetricEvent) : bool :=
  match e with
  | CounterAdd i _ _ => String.eqb (inst_name i) name
  | HistRecord _ _ _ => false
  end.

Definition is_hist_record (name : string) (e : MetricEvent) : bool :=
  match e with
  | CounterAdd _ _ _ => false
  | HistRecord i _ _ => String.eqb (inst_name i) name
  end.

Definition count_events (p : MetricEvent -> bool) (l : list MetricEvent) : nat :=
  List.length (filter (fun e => p e = true) l).

(** Attributes that simulateWork sets, for [ms] sampled milliseconds and
    the value [e] of its error draw. *)
Definition work_attrs (ms e : Z) : list KeyValue :=
  ([("work.type", VString "processing"); ("work.duration_ms", VInt ms)] ++
   (if e =? 0 then [("error", VBool true)] else []))%list.

(** Attributes that workHandler sets on its own span, for the draws [u],
    [q] of the synthetic ids and the value [d] of its outcome draw. *)
Definition request_attrs (u q d : Z) : list KeyValue :=
  ([("user.id", VString ("user-" ++ Itoa u));
    ("request.id", VString ("req-" ++ Itoa q))] ++
   (if d =? 0 then [("error", VBool true)] else []))%list.

(** What workHandler writes, for the value [d] of its outcome draw. *)
Definition work_write (d : Z) (rw : ResponseWriter) : ResponseWriter :=
  if d =? 0 then Write "Internal Server Error"
                   (WriteHeader StatusInternalServerError rw)
  else Write "Work completed successfully" (WriteHeader StatusOK rw).

Definition work_status (d : Z) : string := if d =? 0 then "500" else "200".

Definition error_attr : KeyValue := ("error", VBool true).

(** How many answers of the random source a request consumes. *)
Definition draws_used (r : Request) : nat :=
  if String.eqb (r_Path r) "/work" then 5%nat
  else if String.eqb (r_Path r) "/metrics" then 2%nat
  else 0%nat.

(** The responses to a sequence of requests when each one runs in a world
    without history, on its own draws only. *)
Fixpoint responses_alone (src : nat -> Z) (reqs : list Request) : list Response :=
  match reqs with
  | [] => []
  | r :: t =>
      fst (ServeHTTP registered r (fresh_world src))
      :: responses_alone (fun i => src (i + draws_used r)%nat) t
  end.

(** The attributes of the span [id], none if there is no such span. *)
Definition attrs_of (w : World) (id : nat) : list KeyValue :=
  match spans w !! id with
  | Some s => span_attrs s
  | None => []
  end.

(** Whether a call of simulateWork from [w] takes its error branch: among
    the attributes it adds to the span of [ctx] there is one with key
    error, and one more log line is written. *)
Definition flags_error (ctx : Context) (w : World) : bool :=
  let w' := snd (simulateWork ctx w) in
  match ctx_span ctx with
  | Some id =>
      existsb (fun kv => String.eqb (fst kv) "error")
              (drop (List.length (attrs_of w id)) (attrs_of w' id))
      && Nat.eqb (List.length (log_lines w')) (S (List.length (log_lines w)))
  | None => false
  end.

(** The two literal parts of the /metrics body before its numbers. *)
Definition body_open : string := "{" ++ dquote ++ "cpu_usage" ++ dquote ++ ": ".
Definition body_middle : string := ", " ++ dquote ++ "memory_usage" ++ dquote ++ ": ".

(** A request to /metrics in a world whose random source answers
    2^63 - 1024 each time, the largest 63-bit integer whose quotient by
    2^63 is a double below 1. *)
Definition w_top : World := fresh_world (fun _ => 2 ^ 63 - 1024).
Definition r_metrics : Request := mkRequest "GET" "/metrics" context_Background.

(** One of the five fallible construction steps of initTelemetry returns
    an error. *)
Definition construction_fails (env : Env) : Prop :=
  env_resource_New env <> None
  \/ env_otlptracehttp_New env <> None
  \/ env_otlpmetrichttp_New env <> None
  \/ env_Int64Counter env <> None
  \/ env_Float64Histogram env <> None.

(** The address main listens on. *)
Definition listen_addr (env : Env) : string :=
  ":" ++ (if String.eqb (env_PORT env) EmptyString then "8080" else env_PORT env).

(** The four package-level handles are assigned. *)
Definition handles_initialized (g : Globals) : Prop :=
  g_tracer g = Some (mkScope "sample-app" "1.0.0")
  /\ g_meter g = Some (mkScope "sample-app" "1.0.0")
  /\ g_requestCounter g = Some requestCounter
  /\ g_requestDuration g = Some requestDuration.

(** The response of the work handler on a fresh writer, for the value
    [d] of its outcome draw. *)
Definition work_response (d : Z) : Response :=
  if d =? 0 then mkResponse 500 [] "Internal Server Error"
  else mkResponse 200 [] "Work completed successfully".

(** One call of handler [h] from world [w] adds to the metric emissions
    exactly one Add on http_requests_total and exactly one Record on
    http_request_duration_seconds, and removes none. *)
Definition one_of_each (h : Handler) (rw : ResponseWriter) (r : Request)
    (w : World) : Prop :=
  let w' := snd (h rw r w) in
  metric_log w' = (metric_log w ++ emitted w w')%list
  /\ List.length (emitted w w') = 2%nat
  /\ count_events (is_counter_add "http_requests_total") (emitted w w') = 1%nat
  /\ count_events (is_hist_record "http_request_duration_seconds")
       (emitted w w') = 1%nat.

(** A world with one recording span, as in TestSimulateWork, whose random
    source answers 7 each time. *)
Definition c_test : Context := mkCtx (Some 0%nat).
Definition s_test : Span := mkSpan "test_span" None [] false.
Definition w_test : World := mkWorld (fun _ => 7) 0 0 [s_test] [] [].

(** Two worlds with the same draws ahead and different histories. *)
Definition w_new : World := fresh_world (fun i => Z.of_nat i).
Definition w_old : World :=
  mkWorld (fun j => Z.of_nat (j - 3)) 3 99
          [mkSpan "health_check" None [] true]
          [CounterAdd requestCounter 1 [("status", VString "200")]]
          ["Simulated error occurred"].
Definition reqs_test : list Request :=
  [mkRequest "GET" "/work" context_Background;
   mkRequest "POST" "/metrics" context_Background;
   mkRequest "PUT" "/health" context_Background].

(** ** main_test.go: the substring helpers *)

(** What a Go function call ends in: a returned value, a run-time panic,
    or, for a loop run on fuel, the fuel running out. *)
Inductive result (A : Type) :=
| Ret (a : A)
| Panic
| OutOfFuel.
Arguments Ret {A} a.
Arguments Panic {A}.
Arguments OutOfFuel {A}.

(** len(s) *)
Definition len (s : string) : Z := Z.of_nat (String.length s).

(** s[lo:hi]: panics unless 0 <= lo <= hi <= len(s). *)
Definition slice (s : string) (lo hi : Z) : option string :=
  if (0 <=? lo) && (lo <=? hi) && (hi <=? len s)
  then Some (substring (Z.to_nat lo) (Z.to_nat (hi - lo)) s)
  else None.

(** The loop of containsHelper from index [i]. *)
Fixpoint containsHelper_from (fuel : nat) (s substr : string) (i : Z) : result bool :=
  match fuel with
  | O => OutOfFuel
  | S f =>
      if i <=? len s - len substr then
        match slice s i (i + len substr) with
        | None => Panic
        | Some t =>
            if String.eqb t substr then Ret true
            else containsHelper_from f s substr (i + 1)
        end
      else Ret false
  end.

(** containsHelper (main_test.go 430-437). *)
Definition containsHelper (s substr : string) : result bool :=
  containsHelper_from (S (S (String.length s))) s substr 0.

(** contains (main_test.go 426-428), with the short-circuit evaluation of
    && and ||. *)
Definition contains (s substr : string) : result bool :=
  if len s >=? len substr then
    if String.eqb s substr then Ret true
    else if len s >? len substr then
      match slice s 0 (len substr) with
      | None => Panic
      | Some p =>
          if String.eqb p substr then Ret true
          else
            match slice s (len s - len substr) (len s) with
            | None => Panic
            | Some q =>
                if String.eqb q substr then Ret true
                else containsHelper s substr
            end
      end
    else Ret false
  else Ret false.

(** [substr] occurs in [s]. *)
Definition occurs (substr s : string) : Prop :=
  exists pre post, s = pre ++ substr ++ post.

(** ** main_test.go: the tests *)

(** An argument of a Printf-style call of the testing package:
    [APercent n d] stands for [float64(n)/float64(d)*100]. *)
Inductive Arg :=
| AInt (n : Z)
| AStr (s : string)
| AInts (l : list Z)
| AErr (e : error)
| APercent (num den : Z).

Record Report := mkReport { rp_format : string; rp_args : list Arg }.

(** testing.T, and testing.B for its Fatalf: what Error and Errorf
    recorded, what Log and Logf recorded, and the Fatalf that stopped the
    function, if any. *)
Record T := mkT {
  t_errors : list Report;
  t_logs : list Report;
  t_fatal : option Report
}.

Definition t_Errorf (t : T) (format : string) (args : list Arg) : T :=
  mkT (t_errors t ++ [mkReport format args]) (t_logs t) (t_fatal t).

Definition t_Error (t : T) (msg : string) : T := t_Errorf t msg [].

Definition t_Logf (t : T) (format : string) (args : list Arg) : T :=
  mkT (t_errors t) (t_logs t ++ [mkReport format args]) (t_fatal t).

Definition t_Log (t : T) (msg : string) : T := t_Logf t msg [].

Definition t_Fatalf (t : T) (format : string) (args : list Arg) : T :=
  mkT (t_errors t) (t_logs t) (Some (mkReport format args)).

(** httptest.NewRequest(method, target, nil) *)
Definition httptest_NewRequest (method target : string) : Request :=
  mkRequest method target context_Background.

(** The fields of httptest.ResponseRecorder that the tests read: Code is
    200 until WriteHeader sets it, Header().Get gives the empty string for
    a key that is not set. *)
Definition rec_Code (w : ResponseWriter) : Z :=
  match rw_sent w with
  | Some (code, _) => code
  | None => 200
  end.

Definition rec_Body (w : ResponseWriter) : string := rw_body w.

Definition rec_Header_Get (k : string) (w : ResponseWriter) : string :=
  match header_get k (rw_header w) with
  | Some v => v
  | None => EmptyString
  end.

(** setupTestTelemetry (main_test.go 18-65): providers without exporter or
    reader, no propagator, tracer and meter of scope test-app, and the two
    instruments of the program; an error is returned as it is. *)
Definition setupTestTelemetry (env : Env) (g : Globals) : option error * Globals :=
  match env_resource_New env with
  | Some err => (Some err, g)
  | None =>
  let g := mkGlobals (Some (mkScope "test-app" EmptyString))
                     (Some (mkScope "test-app" EmptyString))
                     (g_requestCounter g) (g_requestDuration g)
                     true (g_propagator g) true in
  match env_Int64Counter env with
  | Some err =>
      (Some err,
       mkGlobals (g_tracer g) (g_meter g) None (g_requestDuration g)
                 (g_tracerProvider g) (g_propagator g) (g_meterProvider g))
  | None =>
  let g := mkGlobals (g_tracer g) (g_meter g) (Some requestCounter)
                     (g_requestDuration g)
                     (g_tracerProvider g) (g_propagator g) (g_meterProvider g) in
  match env_Float64Histogram env with
  | Some err =>
      (Some err,
       mkGlobals (g_tracer g) (g_meter g) (g_requestCounter g) None
                 (g_tracerProvider g) (g_propagator g) (g_meterProvider g))
  | None =>
      (None,
       mkGlobals (g_tracer g) (g_meter g) (g_requestCounter g)
                 (Some requestDuration)
                 (g_tracerProvider g) (g_propagator g) (g_meterProvider g))
  end end end.

(** The table-driven loop [for _, tt := range tests { t.Run(...) }]: the
    failures of a subtest are failures of the test. *)
Fixpoint run_subtests {C : Type} (body : C -> T -> M T) (tests : list C)
    (t : T) : M T :=
  match tests with
  | [] => ret t
  | tc :: rest => t' <- body tc t ;; run_subtests body rest t'
  end.

Record HealthCase := mkHealthCase {
  hc_name : string;
  hc_method : string;
  hc_expectedStatus : Z;
  hc_expectedBody : string
}.

Definition health_tests : list HealthCase :=
  [mkHealthCase "GET health check" "GET" StatusOK "OK";
   mkHealthCase "POST health check" "POST" StatusOK "OK"].

Definition health_subtest (tc : HealthCase) (t : T) : M T :=
  let req := httptest_NewRequest (hc_method tc) "/health" in
  w <- healthHandler newRecorder req ;;
  let t := if negb (rec_Code w =? hc_expectedStatus tc)
           then t_Errorf t "Expected status %d, got %d"
                  [AInt (hc_expectedStatus tc); AInt (rec_Code w)]
           else t in
  let t := if negb (String.eqb (rec_Body w) (hc_expectedBody tc))
           then t_Errorf t "Expected body %q, got %q"
                  [AStr (hc_expectedBody tc); AStr (rec_Body w)]
           else t in
  let contentType := rec_Header_Get "Content-Type" w in
  let t := if negb (String.eqb contentType EmptyString)
           then t_Errorf t "Expected no Content-Type header, got %q"
                  [AStr contentType]
           else t in
  ret t.

(** TestHealthHandler (main_test.go 67-114). *)
Definition TestHealthHandler (env : Env) (g : Globals) (t : T) : M (T * Globals) :=
  match setupTestTelemetry env g with
  | (Some err, g') =>
      ret (t_Fatalf t "Failed to setup test telemetry: %v" [AErr err], g')
  | (None, g') =>
      t' <- run_subtests health_subtest health_tests t ;; ret (t', g')
  end.

Record WorkCase := mkWorkCase {
  wc_name : string;
  wc_method : string;
  wc_expectedStatus : list Z
}.

Definition work_tests : list WorkCase :=
  [mkWorkCase "GET work endpoint" "GET" [StatusOK; StatusInternalServerError];
   mkWorkCase "POST work endpoint" "POST" [StatusOK; StatusInternalServerError]].

(** The inner loop over expectedStatus, with its break. *)
Fixpoint statusFound (code : Z) (expected : list Z) : bool :=
  match expected with
  | [] => false
  | e :: rest => if code =? e then true else statusFound code rest
  end.

(** The loop [for i := 0; i < totalRuns; i++] of TestWorkHandler, for the
    [n] iterations that remain, on the test state and the two counters. *)
Fixpoint work_runs (n : nat) (tc : WorkCase) (st : T * Z * Z) : M (T * Z * Z) :=
  match n with
  | O => ret st
  | S n' =>
      let '(t, successCount, errorCount) := st in
      let req := httptest_NewRequest (wc_method tc) "/work" in
      w <- workHandler newRecorder req ;;
      let t := if negb (statusFound (rec_Code w) (wc_expectedStatus tc))
               then t_Errorf t "Unexpected status %d, expected one of %v"
                      [AInt (rec_Code w); AInts (wc_expectedStatus tc)]
               else t in
      let st' :=
        if rec_Code w =? StatusOK then
          (if negb (String.eqb (rec_Body w) "Work completed successfully")
           then t_Errorf t "Expected success body, got %q" [AStr (rec_Body w)]
           else t,
           successCount + 1, errorCount)
        else if rec_Code w =? StatusInternalServerError then
          (if negb (String.eqb (rec_Body w) "Internal Server Error")
           then t_Errorf t "Expected error body, got %q" [AStr (rec_Body w)]
           else t,
           successCount, errorCount + 1)
        else (t, successCount, errorCount) in
      work_runs n' tc st'
  end.

Definition totalRuns : Z := 100.

Definition work_subtest (tc : WorkCase) (t : T) : M T :=
  st <- work_runs (Z.to_nat totalRuns) tc (t, 0, 0) ;;
  let '(t, successCount, errorCount) := st in
  let t := if errorCount =? 0
           then t_Log t "Warning: No errors generated in 100 runs (expected ~5)"
           else t in
  let t := if successCount =? 0
           then t_Error t "No successful requests in 100 runs"
           else t in
  ret (t_Logf t "Success rate: %d/%d (%.1f%%), Error rate: %d/%d (%.1f%%)"
         [AInt successCount; AInt totalRuns; APercent successCount totalRuns;
          AInt errorCount; AInt totalRuns; APercent errorCount totalRuns]).

(** TestWorkHandler (main_test.go 116-191). *)
Definition TestWorkHandler (env : Env) (g : Globals) (t : T) : M (T * Globals) :=
  match setupTestTelemetry env g with
  | (Some err, g') =>
      ret (t_Fatalf t "Failed to setup test telemetry: %v" [AErr err], g')
  | (None, g') =>
      t' <- run_subtests work_subtest work_tests t ;; ret (t', g')
  end.

Record MetricsCase := mkMetricsCase {
  mc_name : string;
  mc_method : string;
  mc_expectedStatus : Z;
  mc_contentType : string
}.

Definition metrics_tests : list MetricsCase :=
  [mkMetricsCase "GET metrics endpoint" "GET" StatusOK "application/json"].

(** [if !contains(body, key) { t.Error(msg) }], then the rest. *)
Definition check_contains (body key msg : string) (t : T)
    (rest : T -> result T) : result T :=
  match contains body key with
  | Ret found => rest (if negb found then t_Error t msg else t)
  | Panic => Panic
  | OutOfFuel => OutOfFuel
  end.

Definition metrics_subtest (tc : MetricsCase) (t : T) : M (result T) :=
  let req := httptest_NewRequest (mc_method tc) "/metrics" in
  w <- metricsHandler newRecorder req ;;
  let t := if negb (rec_Code w =? mc_expectedStatus tc)
           then t_Errorf t "Expected status %d, got %d"
                  [AInt (mc_expectedStatus tc); AInt (rec_Code w)]
           else t in
  let contentType := rec_Header_Get "Content-Type" w in
  let t := if negb (String.eqb contentType (mc_contentType tc))
           then t_Errorf t "Expected Content-Type %q, got %q"
                  [AStr (mc_contentType tc); AStr contentType]
           else t in
  let body := rec_Body w in
  let t := if len body =? 0
           then t_Error t "Expected non-empty response body"
           else t in
  ret (check_contains body "cpu_usage" "Response should contain 'cpu_usage'" t
         (fun t =>
            check_contains body "memory_usage"
              "Response should contain 'memory_usage'" t Ret)).

(** The table loop when a subtest may panic. *)
Fixpoint run_subtests_r {C : Type} (body : C -> T -> M (result T))
    (tests : list C) (t : T) : M (result T) :=
  match tests with
  | [] => ret (Ret t)
  | tc :: rest =>
      r <- body tc t ;;
      match r with
      | Ret t' => run_subtests_r body rest t'
      | Panic => ret Panic
      | OutOfFuel => ret OutOfFuel
      end
  end.

(** TestMetricsHandler (main_test.go 193-243). *)
Definition TestMetricsHandler (env : Env) (g : Globals) (t : T) :
    M (result T * Globals) :=
  match setupTestTelemetry env g with
  | (Some err, g') =>
      ret (Ret (t_Fatalf t "Failed to setup test telemetry: %v" [AErr err]), g')
  | (None, g') =>
      r <- run_subtests_r metrics_subtest metrics_tests t ;; ret (r, g')
  end.

(** The loop [for i := 0; i < 50; i++] of TestSimulateWork. *)
Fixpoint simulate_runs (n : nat) : M unit :=
  match n with
  | O => ret tt
  | S n' =>
      cs <- tracer_Start context_Background "test_span" ;;
      let '(ctx, span) := cs in
      simulateWork ctx ;;
      span_End span ;;
      simulate_runs n'
  end.

Definition simulate_subtest (t : T) : M T :=
  cs <- tracer_Start context_Background "test_span" ;;
  let '(ctx, span) := cs in
  start <- time_Now ;;
  simulateWork ctx ;;
  duration <- time_Since start ;;
  let t := if duration <? Millisecond
           then t_Error t "simulateWork should take some time"
           else t in
  let t := if duration >? 600 * Millisecond
           then t_Error t "simulateWork took too long (>600ms)"
           else t in
  simulate_runs 50 ;;
  span_End span ;;
  ret t.

(** TestSimulateWork (main_test.go 245-289); its table has one entry. *)
Definition TestSimulateWork (env : Env) (g : Globals) (t : T) : M (T * Globals) :=
  match setupTestTelemetry env g with
  | (Some err, g') =>
      ret (t_Fatalf t "Failed to setup test telemetry: %v" [AErr err], g')
  | (None, g') =>
      t' <- simulate_subtest t ;; ret (t', g')
  end.

(** TestInitTelemetryWithoutExporter (main_test.go 291-315): it calls no
    setup and reads the package-level tracer as earlier tests left it. *)
Definition TestInitTelemetryWithoutExporter (g : Globals) (t : T) : T :=
  match g_tracer g with
  | None => t_Error t "tracer should be initialized"
  | Some _ => t
  end.

(** The loop [for i := 0; i < b.N; i++] of the three benchmarks. *)
Fixpoint bench_runs (h : Handler) (req : Request) (n : nat) : M unit :=
  match n with
  | O => ret tt
  | S n' => h newRecorder req ;; bench_runs h req n'
  end.

(** BenchmarkHealthHandler, BenchmarkWorkHandler and BenchmarkMetricsHandler
    (main_test.go 383-423) differ in the handler and its path only. *)
Definition Benchmark (h : Handler) (path : string) (env : Env) (g : Globals)
    (b : T) (bN : nat) : M (T * Globals) :=
  match setupTestTelemetry env g with
  | (Some err, g') =>
      ret (t_Fatalf b "Failed to setup test telemetry: %v" [AErr err], g')
  | (None, g') =>
      let req := httptest_NewRequest "GET" path in
      bench_runs h req bN ;; ret (b, g')
  end.

Definition BenchmarkHealthHandler := Benchmark healthHandler "/health".
Definition BenchmarkWorkHandler := Benchmark workHandler "/work".
Definition BenchmarkMetricsHandler := Benchmark metricsHandler "/metrics".

(** How many of the [n] runs of the work handler that start at run
    [first] draw the 500 outcome: run [k] makes the draws 5k .. 5k+4. *)
Fixpoint failed_runs (w : World) (first n : nat) : Z :=
  match n with
  | O => 0
  | S n' =>
      (if draw w (5 * first + 4) mod 20 =? 0 then 1 else 0)
      + failed_runs w (S first) n'
  end.

(** What a subtest of TestWorkHandler reports after its loop, when [f] of
    its 100 runs drew the 500 outcome. *)
Definition no_success_error (f : Z) : list Report :=
  if f =? 100 then [mkReport "No successful requests in 100 runs" []] else [].

Definition no_error_warning (f : Z) : list Report :=
  if f =? 0
  then [mkReport "Warning: No errors generated in 100 runs (expected ~5)" []]
  else [].

Definition rate_report (f : Z) : Report :=
  mkReport "Success rate: %d/%d (%.1f%%), Error rate: %d/%d (%.1f%%)"
    [AInt (100 - f); AInt 100; APercent (100 - f) 100;
     AInt f; AInt 100; APercent f 100].

(** ** How the world grows *)

Definition all_ended (l : list Span) : Prop :=
  Forall (fun s => span_ended s = true) l.

(** From [w] to [w'] the random source is the same and its cursor is
    [nd] draws further; [ns] spans were appended, all of them ended, and
    no older span changed; the metric emissions were extended by [nr]
    increments of http_requests_total and [nr] observations of
    http_request_duration_seconds and nothing else; the log was extended;
    the clock did not go back. *)
Definition grows (w w' : World) (ns nd nr : nat) : Prop :=
  rand_src w' = rand_src w
  /\ rand_pos w' = (nd + rand_pos w)%nat
  /\ (exists new, spans w' = (spans w ++ new)%list
                  /\ List.length new = ns /\ all_ended new)
  /\ (exists ev, metric_log w' = (metric_log w ++ ev)%list
                 /\ List.length ev = (2 * nr)%nat
                 /\ count_events (is_counter_add "http_requests_total") ev = nr
                 /\ count_events (is_hist_record "http_request_duration_seconds")
                      ev = nr)
  /\ (exists l, log_lines w' = (log_lines w ++ l)%list)
  /\ clock w <= clock w'.

(** The spans a routed request opens. *)
Definition spans_opened (r : Request) : nat :=
  if String.eqb (r_Path r) "/work" then 2%nat
  else if String.eqb (r_Path r) "/health" then 1%nat
  else if String.eqb (r_Path r) "/metrics" then 1%nat
  else 0%nat.

(** Whether the mux has a handler for the request. *)
Definition routed (r : Request) : nat :=
  match mux_handler registered (r_Path r) with
  | Some _ => 1%nat
  | None => 0%nat
  end.

Definition sum_over (f : Request -> nat) (reqs : list Request) : nat :=
  fold_right (fun r acc => (f r + acc)%nat) 0%nat reqs.

(** ** Start-up, step by step *)

(** The five fallible steps of initTelemetry in the order of the source,
    each with the prefix its error is wrapped in. *)
Definition init_steps (env : Env) : list (string * option error) :=
  [("failed to create resource", env_resource_New env);
   ("failed to create trace exporter", env_otlptracehttp_New env);
   ("failed to create metric exporter", env_otlpmetrichttp_New env);
   ("failed to create counter", env_Int64Counter env);
   ("failed to create histogram", env_Float64Histogram env)].

(** The three fallible steps of setupTestTelemetry. *)
Definition setup_steps (env : Env) : list (string * option error) :=
  [("resource", env_resource_New env);
   ("counter", env_Int64Counter env);
   ("histogram", env_Float64Histogram env)].

(** The error of the first step that fails, and its prefix. *)
Fixpoint first_failure (steps : list (string * option error)) :
    option (string * error) :=
  match steps with
  | [] => None
  | (prefix, Some e) :: _ => Some (prefix, e)
  | (_, None) :: rest => first_failure rest
  end.

(** How many steps succeed before the first one that fails. *)
Fixpoint passed (steps : list (string * option error)) : nat :=
  match steps with
  | (_, None) :: rest => S (passed rest)
  | _ => 0%nat
  end.

(** ** load-test.sh: one round of the load generator

    The script is the ConfigMap entry that follows main.go. [RANDOM] is
    bash's variable, an integer of [0, 32767]; the remainder of shell
    arithmetic truncates toward zero. *)

(** DELAY=$((RANDOM % 5 + 1)) *)
Definition DELAY_of (RANDOM : Z) : Z := Z.rem RANDOM 5 + 1.

(** RAND_NUM=$((RANDOM % 3)) and the case statement: a value that matches
    no pattern leaves ENDPOINT as it was. *)
Definition ENDPOINT_of (previous : string) (RANDOM : Z) : string :=
  let RAND_NUM := Z.rem RANDOM 3 in
  if RAND_NUM =? 0 then "/health"
  else if RAND_NUM =? 1 then "/work"
  else if RAND_NUM =? 2 then "/metrics"
  else previous.

(** [ "$HTTP_CODE" != "200" ] && [ "$HTTP_CODE" != "500" ] *)
Definition unexpected_code (HTTP_CODE : string) : bool :=
  negb (String.eqb HTTP_CODE "200") && negb (String.eqb HTTP_CODE "500").

(** curl's request for the chosen endpoint, and its %{http_code} for a
    response. *)
Definition curl_request (ENDPOINT : string) : Request :=
  mkRequest "GET" ENDPOINT context_Background.

Definition http_code (resp : Response) : string := Itoa (resp_status resp).

(** ** create-secret.sh

    The script runs under [set -e]: a simple command that fails outside a
    condition ends the script with that command's status. *)

(** What the commands of one run answer. *)
Record SecretEnv := mkSecretEnv {
  sh_command_v_kubectl : bool;      (* command -v kubectl succeeds *)
  sh_cluster_info : bool;           (* kubectl cluster-info succeeds *)
  sh_get_secret : bool;             (* kubectl get secret ... succeeds *)
  sh_delete_status : Z;             (* status of kubectl delete secret ... *)
  sh_read : option string;          (* read -s: the line, None when it fails *)
  sh_create_status : Z              (* status of kubectl create secret ... *)
}.

(** What the script runs and prints, in order. *)
Inductive ShStep :=
| PrintStatus (msg : string)
| PrintError (msg : string)
| EchoN (text : string)
| EchoLine
| CommandV (name : string)
| KubectlClusterInfo
| KubectlGetSecret
| KubectlDeleteSecret
| ReadSilent
| KubectlCreateSecret (api_key : string).

(** create-secret.sh (lines 18-54): the steps of a run and its exit
    status. *)
Definition create_secret_sh (env : SecretEnv) : list ShStep * Z :=
  let tr := [PrintStatus "Creating Datadog API key secret..."; CommandV "kubectl"] in
  if negb (sh_command_v_kubectl env) then
    ((tr ++ [PrintError "kubectl is required but not installed"])%list, 1)
  else
  let tr := (tr ++ [KubectlClusterInfo])%list in
  if negb (sh_cluster_info env) then
    ((tr ++ [PrintError "kubectl cannot connect to Kubernetes cluster"])%list, 1)
  else
  let tr := (tr ++ [KubectlGetSecret])%list in
  let after_delete (tr : list ShStep) : list ShStep * Z :=
    let tr := (tr ++ [EchoN "Enter your Datadog API key: "; ReadSilent])%list in
    match sh_read env with
    | None => (tr, 1)
    | Some DD_API_KEY =>
        let tr := (tr ++ [EchoLine])%list in
        if String.eqb DD_API_KEY EmptyString then
          ((tr ++ [PrintError "Datadog API key is required"])%list, 1)
        else
          let tr := (tr ++ [KubectlCreateSecret DD_API_KEY])%list in
          if negb (sh_create_status env =? 0) then (tr, sh_create_status env)
          else
            ((tr ++ [PrintStatus "Datadog API key secret created successfully!";
                     PrintStatus "You can now run './deploy.sh' to deploy the application."])%list,
             0)
    end in
  if sh_get_secret env then
    let tr := (tr ++ [PrintStatus "Secret already exists. Deleting existing secret...";
                     KubectlDeleteSecret])%list in
    if negb (sh_delete_status env =? 0) then (tr, sh_delete_status env)
    else after_delete tr
  else after_delete tr.

Definition is_create (s : ShStep) : bool :=
  match s with KubectlCreateSecret _ => true | _ => false end.

Definition is_delete (s : ShStep) : bool :=
  match s with KubectlDeleteSecret => true | _ => false end.

(** * Properties *)

Arguments Itoa : simpl never.
Arguments utoa : simpl never.
Arguments format2 : simpl never.
Arguments fmul : simpl never.
Arguments Float64_of : simpl never.

Ltac exec :=
  cbv beta iota zeta delta
    [healthHandler workHandler metricsHandler simulateWork
     bind ret rand_Intn rand_Float64 rand_next time_Now time_Since
     time_Sleep log_Printf tracer_Start trace_SpanFromContext
     span_SetAttributes span_End set_spans counter_Add histogram_Record
     emit draw];
  cbn [rand_src rand_pos clock spans metric_log log_lines ctx_span
       Nat.add fst snd].

(** ** The printers and the reader on examples *)

Example Itoa_42 : Itoa 42 = "42". Proof. reflexivity. Qed.

Example Itoa_0 : Itoa 0 = "0". Proof. reflexivity. Qed.

Example Itoa_neg : Itoa (-307) = "-307". Proof. reflexivity. Qed.

Example format2_eighth : format2 (mkF64 1 (-3)) = "0.12". Proof. reflexivity. Qed.

Example format2_3eighth : format2 (mkF64 3 (-3)) = "0.38". Proof. reflexivity. Qed.

Example parse_two_fields :
  parse_object ("{" ++ dquote ++ "a" ++ dquote ++ ": 12.50, " ++
                dquote ++ "b" ++ dquote ++ ": 0}")
  = Some [("a", mkNumber false 1250 2); ("b", mkNumber false 0 0)].
Proof. reflexivity. Qed.

Example parse_rejects_leading_zero :
  parse_object ("{" ++ dquote ++ "a" ++ dquote ++ ": 012}") = None.
Proof. reflexivity. Qed.

Example parse_rejects_bare_point :
  parse_object ("{" ++ dquote ++ "a" ++ dquote ++ ": 1.}") = None.
Proof. reflexivity. Qed.

(** ** The span store *)

Lemma alter_app_here {A} (f : A -> A) (l : list A) (x : A) (t : list A) :
  alter f (List.length l) (l ++ x :: t)%list = (l ++ f x :: t)%list.
Proof.
  induction l as [|a l IH]; simpl; [reflexivity|]. f_equal. exact IH.
Qed.

Lemma add_attrs_add_attrs (a b : list KeyValue) (s : Span) :
  add_attrs b (add_attrs a s) = add_attrs (a ++ b) s.
Proof.
  unfold add_attrs. destruct s as [nm p at_ en]; simpl.
  destruct en; simpl; [reflexivity|]. now rewrite app_assoc.
Qed.

Lemma alter_add_attrs_twice (a b : list KeyValue) (id : nat) (l : list Span) :
  alter (add_attrs b) id (alter (add_attrs a) id l)
  = alter (add_attrs (a ++ b)) id l.
Proof.
  revert id. induction l as [|s l IH]; intros [|id]; simpl; try reflexivity.
  - now rewrite add_attrs_add_attrs.
  - f_equal. apply IH.
Qed.

(** ** The integer arithmetic of the sampled duration *)

Lemma wrap64_small (x : Z) : - 2 ^ 63 <= x < 2 ^ 63 -> wrap64 x = x.
Proof.
  intros H. unfold wrap64. rewrite Z.mod_small; lia.
Qed.

Lemma sampled_duration (n : Z) :
  0 <= n < 500 ->
  Duration_mul n Millisecond = n * 1000000 /\
  Duration_Milliseconds (Duration_mul n Millisecond) = n.
Proof.
  intros H. unfold Duration_mul, Duration_Milliseconds, Millisecond.
  rewrite wrap64_small by lia. split; [reflexivity|].
  rewrite Z.quot_mul; lia.
Qed.

Lemma Intn_range (r n : Z) : 0 < n -> 0 <= r mod n < n.
Proof. intros H. apply Z.mod_pos_bound. exact H. Qed.

(** ** What one call does to the world *)

Lemma simulateWork_run (ctx : Context) (w : World) :
  let n := draw w 0 mod 500 in
  let e := draw w 1 mod 10 in
  simulateWork ctx w =
  (tt,
   mkWorld (rand_src w) (2 + rand_pos w)
     (clock w + Z.max (Duration_mul n Millisecond) 0)
     (match ctx_span ctx with
      | Some id =>
          alter (add_attrs
                   (work_attrs (Duration_Milliseconds (Duration_mul n Millisecond)) e))
                id (spans w)
      | None => spans w
      end)
     (metric_log w)
     (log_lines w ++ (if e =? 0 then ["Simulated error occurred"] else []))).
Proof.
  intros n e. subst n e. unfold work_attrs. exec.
  destruct (ctx_span ctx) as [id|];
    cbv beta iota delta [ret set_spans];
    cbn [rand_src rand_pos clock spans metric_log log_lines ctx_span Nat.add];
    destruct (rand_src w (S (rand_pos w)) mod 10 =? 0);
    cbn [rand_src rand_pos clock spans metric_log log_lines ctx_span Nat.add];
    rewrite ?alter_add_attrs_twice, ?app_nil_r; reflexivity.
Qed.

Lemma healthHandler_run (rw : ResponseWriter) (r : Request) (w : World) :
  healthHandler rw r w =
  (Write "OK" (WriteHeader StatusOK rw),
   mkWorld (rand_src w) (rand_pos w) (clock w)
     (spans w ++ [mkSpan "health_check" (ctx_span (r_Context r)) [] true])
     (metric_log w ++
      [CounterAdd requestCounter 1
         [("method", VString (r_Method r)); ("endpoint", VString "/health");
          ("status", VString "200")];
       HistRecord requestDuration 0
         [("method", VString (r_Method r)); ("endpoint", VString "/health")]])
     (log_lines w)).
Proof.
  exec. rewrite alter_app_here, Z.sub_diag, <- app_assoc. reflexivity.
Qed.

Lemma workHandler_run (rw : ResponseWriter) (r : Request) (w : World) :
  let u := draw w 0 mod 100 in
  let q := draw w 1 mod 10000 in
  let n := draw w 2 mod 500 in
  let e := draw w 3 mod 10 in
  let d := draw w 4 mod 20 in
  let slept := Z.max (Duration_mul n Millisecond) 0 in
  workHandler rw r w =
  (work_write d rw,
   mkWorld (rand_src w) (5 + rand_pos w) (clock w + slept)
     (spans w ++
      [mkSpan "do_work" (ctx_span (r_Context r)) (request_attrs u q d) true;
       mkSpan "nested_operation" (Some (List.length (spans w)))
         (work_attrs (Duration_Milliseconds (Duration_mul n Millisecond)) e)
         true])
     (metric_log w ++
      [CounterAdd requestCounter 1
         [("method", VString (r_Method r)); ("endpoint", VString "/work");
          ("status", VString (work_status d))];
       HistRecord requestDuration slept
         [("method", VString (r_Method r)); ("endpoint", VString "/work")]])
     (log_lines w ++
      (if e =? 0 then ["Simulated error occurred"] else []))).
Proof.
  intros u q n e d slept. subst u q n e d slept.
  unfold work_write, work_status, work_attrs, request_attrs.
  exec.
  destruct (rand_src w (S (S (S (rand_pos w)))) mod 10 =? 0);
    cbn [rand_src rand_pos clock spans metric_log log_lines ctx_span Nat.add];
    destruct (rand_src w (S (S (S (S (rand_pos w))))) mod 20 =? 0);
    cbn [rand_src rand_pos clock spans metric_log log_lines ctx_span Nat.add];
    repeat (rewrite ?alter_app_here, ?length_alter, ?length_app; simpl;
            rewrite <- ?app_assoc; simpl);
    unfold end_span, add_attrs; simpl;
    rewrite Z.add_simpl_l, ?app_nil_r; reflexivity.
Qed.

Lemma metricsHandler_run (rw : ResponseWriter) (r : Request) (w : World) :
  let cpuUsage := fmul (Float64_of (draw w 0)) f100 in
  let memoryUsage :=
    fmul (fmul (fmul (Float64_of (draw w 1)) f1024) f1024) f1024 in
  metricsHandler rw r w =
  (Write (metrics_body cpuUsage memoryUsage)
     (WriteHeader StatusOK (Header_Set "Content-Type" "application/json" rw)),
   mkWorld (rand_src w) (2 + rand_pos w) (clock w)
     (spans w ++
      [mkSpan "metrics" (ctx_span (r_Context r))
         [("system.cpu.usage", VFloat64 cpuUsage);
          ("system.memory.usage", VFloat64 memoryUsage)] true])
     (metric_log w ++
      [CounterAdd requestCounter 1
         [("method", VString (r_Method r)); ("endpoint", VString "/metrics");
          ("status", VString "200")];
       HistRecord requestDuration 0
         [("method", VString (r_Method r)); ("endpoint", VString "/metrics")]])
     (log_lines w)).
Proof.
  intros cpuUsage memoryUsage. subst cpuUsage memoryUsage.
  exec.
  repeat (rewrite ?alter_app_here, ?length_alter, ?length_app; simpl;
          rewrite <- ?app_assoc; simpl).
  unfold end_span, add_attrs; simpl. rewrite Z.sub_diag. reflexivity.
Qed.

(** ** Draws *)

Lemma draw_with_draw (w : World) (i j : nat) (v : Z) :
  draw (with_draw w i v) j = if Nat.eqb j i then v else draw w j.
Proof.
  unfold draw, with_draw; simpl.
  destruct (Nat.eqb j i) eqn:E.
  - apply Nat.eqb_eq in E. subst j. now rewrite Nat.eqb_refl.
  - apply Nat.eqb_neq in E.
    destruct (Nat.eqb (j + rand_pos w) (i + rand_pos w)) eqn:E'; [|reflexivity].
    apply Nat.eqb_eq in E'. lia.
Qed.

Lemma favourable_ext (n : Z) (ev ev' : Z -> bool) :
  (forall v, ev v = ev' v) -> favourable n ev = favourable n ev'.
Proof.
  intros H. unfold favourable. f_equal.
  induction (seqZ 0 n) as [|x l IH]; [reflexivity|].
  rewrite !filter_cons, IH.
  destruct (decide (ev x = true)) as [Hx|Hx];
    destruct (decide (ev' x = true)) as [Hx'|Hx']; try reflexivity;
    rewrite H in Hx; contradiction.
Qed.

(** ** Responses *)


Lemma work_write_fresh (d : Z) :
  response_of (work_write d newRecorder) = work_response d.
Proof. unfold work_write, work_response. destruct (d =? 0); reflexivity. Qed.

Lemma workHandler_response (r : Request) (w : World) :
  response_of (fst (workHandler newRecorder r w))
  = work_response (draw w 4 mod 20).
Proof.
  pose proof (workHandler_run newRecorder r w) as H. cbv zeta in H.
  rewrite H. cbn [fst]. apply work_write_fresh.
Qed.

Lemma healthHandler_response (r : Request) (w : World) :
  response_of (fst (healthHandler newRecorder r w)) = mkResponse 200 [] "OK".
Proof. rewrite healthHandler_run. reflexivity. Qed.

Lemma metricsHandler_response (r : Request) (w : World) :
  response_of (fst (metricsHandler newRecorder r w))
  = mkResponse 200 [("Content-Type", "application/json")]
      (metrics_body
         (fmul (Float64_of (draw w 0)) f100)
         (fmul (fmul (fmul (Float64_of (draw w 1)) f1024) f1024) f1024)).
Proof.
  pose proof (metricsHandler_run newRecorder r w) as H. cbv zeta in H.
  rewrite H. reflexivity.
Qed.

Lemma error_attr_request (u q d : Z) :
  In error_attr (request_attrs u q d) <-> d = 0.
Proof.
  unfold request_attrs, error_attr. split.
  - intros H. apply in_app_or in H. destruct H as [H|H].
    + simpl in H. destruct H as [H|[H|[]]]; discriminate H.
    + destruct (d =? 0) eqn:E; [lia | destruct H].
  - intros ->. simpl. auto.
Qed.

Lemma error_attr_work (ms e : Z) :
  In error_attr (work_attrs ms e) <-> e = 0.
Proof.
  unfold work_attrs, error_attr. split.
  - intros H. apply in_app_or in H. destruct H as [H|H].
    + simpl in H. destruct H as [H|[H|[]]]; discriminate H.
    + destruct (e =? 0) eqn:E; [lia | destruct H].
  - intros ->. simpl. auto.
Qed.

(** C1: the work handler answers either 500 "Internal Server Error" or 200
    "Work completed successfully" and nothing else; it answers 500 exactly
    when its draw of [rand.Intn(20)] is 0, which is 1 of the 20 values of
    that draw (19 give 200), and exactly then the request span do_work
    carries error=true. *)
Theorem work_handler_two_outcomes (r : Request) (w : World) :
  let d := draw w 4 mod 20 in
  let out := workHandler newRecorder r w in
  let answer v := response_of (fst (workHandler newRecorder r (with_draw w 4 v))) in
  0 <= d < 20
  /\ response_of (fst out)
     = (if d =? 0 then mkResponse 500 [] "Internal Server Error"
        else mkResponse 200 [] "Work completed successfully")
  /\ (response_of (fst out) = mkResponse 500 [] "Internal Server Error"
      \/ response_of (fst out) = mkResponse 200 [] "Work completed successfully")
  /\ (exists s, spans (snd out) !! List.length (spans w) = Some s
                /\ span_name s = "do_work"
                /\ (In error_attr (span_attrs s) <-> d = 0))
  /\ favourable 20 (fun v => resp_status (answer v) =? 500) = 1%nat
  /\ favourable 20 (fun v => resp_status (answer v) =? 200) = 19%nat.
Proof.
  intros d out answer. subst d out answer.
  split; [apply Intn_range; lia|].
  split; [apply workHandler_response|].
  split.
  { rewrite workHandler_response. unfold work_response.
    destruct (draw w 4 mod 20 =? 0); auto. }
  split.
  - pose proof (workHandler_run newRecorder r w) as H. cbv zeta in H.
    rewrite H. cbn [snd spans].
    eexists. split; [apply list_lookup_middle; reflexivity|].
    split; [reflexivity|]. cbn [span_attrs]. apply error_attr_request.
  - assert (E : forall v,
      response_of (fst (workHandler newRecorder r (with_draw w 4 v)))
      = work_response (v mod 20)).
    { intros v. rewrite workHandler_response, draw_with_draw. reflexivity. }
    split.
    + rewrite (favourable_ext 20 _
                 (fun v => resp_status (work_response (v mod 20)) =? 500)).
      * vm_compute. reflexivity.
      * intros v. now rewrite E.
    + rewrite (favourable_ext 20 _
                 (fun v => resp_status (work_response (v mod 20)) =? 200)).
      * vm_compute. reflexivity.
      * intros v. now rewrite E.
Qed.

(** C2: whatever the method and the rest of the request, the health
    handler answers 200 with body "OK" and leaves the header map empty: it
    sets no Content-Type. *)
Theorem health_always_ok (r : Request) (w : World) :
  let rw := fst (healthHandler newRecorder r w) in
  response_of rw = mkResponse 200 [] "OK"
  /\ rw_header rw = []
  /\ header_get "Content-Type" (resp_header (response_of rw)) = None.
Proof.
  cbv zeta. rewrite healthHandler_run. cbn [fst].
  repeat split.
Qed.

(** ** Metric emissions *)

Lemma emitted_app (w w' : World) (l : list MetricEvent) :
  metric_log w' = (metric_log w ++ l)%list -> emitted w w' = l.
Proof. intros H. unfold emitted. rewrite H. apply drop_app_length. Qed.

Lemma healthHandler_emitted (rw : ResponseWriter) (r : Request) (w : World) :
  metric_log (snd (healthHandler rw r w))
  = (metric_log w ++
     [CounterAdd requestCounter 1
        [("method", VString (r_Method r)); ("endpoint", VString "/health");
         ("status", VString "200")];
      HistRecord requestDuration 0
        [("method", VString (r_Method r)); ("endpoint", VString "/health")]])%list.
Proof. rewrite healthHandler_run. reflexivity. Qed.

Lemma workHandler_emitted (rw : ResponseWriter) (r : Request) (w : World) :
  metric_log (snd (workHandler rw r w))
  = (metric_log w ++
     [CounterAdd requestCounter 1
        [("method", VString (r_Method r)); ("endpoint", VString "/work");
         ("status", VString (work_status (draw w 4 mod 20)))];
      HistRecord requestDuration
        (Z.max (Duration_mul (draw w 2 mod 500) Millisecond) 0)
        [("method", VString (r_Method r)); ("endpoint", VString "/work")]])%list.
Proof.
  pose proof (workHandler_run rw r w) as H. cbv zeta in H.
  rewrite H. reflexivity.
Qed.

Lemma metricsHandler_emitted (rw : ResponseWriter) (r : Request) (w : World) :
  metric_log (snd (metricsHandler rw r w))
  = (metric_log w ++
     [CounterAdd requestCounter 1
        [("method", VString (r_Method r)); ("endpoint", VString "/metrics");
         ("status", VString "200")];
      HistRecord requestDuration 0
        [("method", VString (r_Method r)); ("endpoint", VString "/metrics")]])%list.
Proof.
  pose proof (metricsHandler_run rw r w) as H. cbv zeta in H.
  rewrite H. reflexivity.
Qed.


Lemma one_of_each_intro (h : Handler) rw r w i1 a1 a2 v :
  metric_log (snd (h rw r w))
  = (metric_log w ++
     [CounterAdd requestCounter i1 a1; HistRecord requestDuration v a2])%list ->
  one_of_each h rw r w.
Proof.
  intros H. unfold one_of_each. cbv zeta.
  rewrite (emitted_app _ _ _ H). rewrite H. repeat split.
Qed.

(** C4: each of the three handlers, on every path (for the work handler
    whatever its outcome draw is, so also on the 500 branch), emits exactly
    one increment of http_requests_total and exactly one observation of
    http_request_duration_seconds. *)
Theorem one_counter_one_histogram (rw : ResponseWriter) (r : Request) (w : World) :
  one_of_each healthHandler rw r w
  /\ one_of_each workHandler rw r w
  /\ one_of_each metricsHandler rw r w
  /\ (exists tag attrs,
        emitted w (snd (workHandler rw r w))
        = [CounterAdd requestCounter 1
             [("method", VString (r_Method r)); ("endpoint", VString "/work");
              ("status", VString tag)];
           HistRecord requestDuration
             (Z.max (Duration_mul (draw w 2 mod 500) Millisecond) 0) attrs]
        /\ tag = (if draw w 4 mod 20 =? 0 then "500" else "200")).
Proof.
  split; [eapply one_of_each_intro, healthHandler_emitted|].
  split; [eapply one_of_each_intro, workHandler_emitted|].
  split; [eapply one_of_each_intro, metricsHandler_emitted|].
  do 2 eexists. split.
  - apply emitted_app, workHandler_emitted.
  - reflexivity.
Qed.

(** ** The two random error annotations of /work *)

(** C6: the response of the work handler and its counter emission are a
    function of the handler's own outcome draw (the fifth answer of the
    source); replacing the simulator's error draw (the fourth answer) by
    any other value changes neither the response, nor the metric
    emissions, nor the clock, nor the number of draws consumed. *)
Theorem work_response_ignores_simulator_draw (r : Request) (w : World) (v v' : Z) :
  let run x := workHandler newRecorder r (with_draw w 3 x) in
  response_of (fst (workHandler newRecorder r w)) = work_response (draw w 4 mod 20)
  /\ response_of (fst (run v)) = response_of (fst (run v'))
  /\ resp_status (response_of (fst (run v)))
     = resp_status (response_of (fst (workHandler newRecorder r w)))
  /\ metric_log (snd (run v)) = metric_log (snd (run v'))
  /\ emitted (with_draw w 3 v) (snd (run v))
     = [CounterAdd requestCounter 1
          [("method", VString (r_Method r)); ("endpoint", VString "/work");
           ("status", VString (work_status (draw w 4 mod 20)))];
        HistRecord requestDuration
          (Z.max (Duration_mul (draw w 2 mod 500) Millisecond) 0)
          [("method", VString (r_Method r)); ("endpoint", VString "/work")]]
  /\ clock (snd (run v)) = clock (snd (run v'))
  /\ rand_pos (snd (run v)) = rand_pos (snd (run v')).
Proof.
  cbv zeta.
  split; [apply workHandler_response|].
  split; [now rewrite !workHandler_response, !draw_with_draw|].
  split; [now rewrite !workHandler_response, !draw_with_draw|].
  split; [now rewrite !workHandler_emitted, !draw_with_draw|].
  split.
  { apply emitted_app. rewrite workHandler_emitted, !draw_with_draw.
    reflexivity. }
  pose proof (workHandler_run newRecorder r (with_draw w 3 v)) as H.
  pose proof (workHandler_run newRecorder r (with_draw w 3 v')) as H'.
  cbv zeta in H, H'. rewrite H, H'. cbn [snd clock rand_pos].
  rewrite !draw_with_draw. split; reflexivity.
Qed.

(** C10: after the work handler, the span store holds two more spans: the
    request span do_work, with the synthetic ids and, exactly when the
    outcome draw is 0, error=true; and its child nested_operation, with
    the attributes of simulateWork (work.type, work.duration_ms and,
    exactly when the simulator's error draw is 0, error=true). The two
    error annotations are on different spans. *)
Theorem work_annotations_on_two_spans (r : Request) (w : World) :
  let w' := snd (workHandler newRecorder r w) in
  let pid := List.length (spans w) in
  let cid := S pid in
  let ms := draw w 2 mod 500 in
  let e := draw w 3 mod 10 in
  let d := draw w 4 mod 20 in
  pid <> cid
  /\ List.length (spans w') = S cid
  /\ spans w' !! pid
     = Some (mkSpan "do_work" (ctx_span (r_Context r))
               (request_attrs (draw w 0 mod 100) (draw w 1 mod 10000) d) true)
  /\ spans w' !! cid
     = Some (mkSpan "nested_operation" (Some pid) (work_attrs ms e) true)
  /\ (In error_attr (request_attrs (draw w 0 mod 100) (draw w 1 mod 10000) d)
      <-> d = 0)
  /\ (In error_attr (work_attrs ms e) <-> e = 0)
  /\ ~ In ("work.type", VString "processing")
         (request_attrs (draw w 0 mod 100) (draw w 1 mod 10000) d)
  /\ In ("work.type", VString "processing") (work_attrs ms e)
  /\ In ("work.duration_ms", VInt ms) (work_attrs ms e).
Proof.
  cbv zeta.
  pose proof (workHandler_run newRecorder r w) as H. cbv zeta in H.
  rewrite H. cbn [snd spans].
  destruct (sampled_duration (draw w 2 mod 500)) as [_ Hms];
    [apply Intn_range; lia|]. rewrite Hms.
  split; [lia|].
  split; [rewrite length_app; simpl; lia|].
  split; [apply list_lookup_middle; reflexivity|].
  split.
  { rewrite (lookup_app_r (spans w)) by lia.
    replace (S (List.length (spans w)) - List.length (spans w))%nat with 1%nat by lia.
    reflexivity. }
  split; [apply error_attr_request|].
  split; [apply error_attr_work|].
  split.
  { unfold request_attrs. intros Hin. apply in_app_or in Hin.
    destruct Hin as [Hin|Hin].
    - simpl in Hin. destruct Hin as [Hin|[Hin|[]]]; discriminate Hin.
    - destruct (draw w 4 mod 20 =? 0); simpl in Hin;
        [destruct Hin as [Hin|[]]; discriminate Hin | destruct Hin]. }
  unfold work_attrs. split; simpl; auto.
Qed.

(** ** The work simulator *)

Lemma simulateWork_span (ctx : Context) (w : World) (id : nat) (s : Span) :
  ctx_span ctx = Some id ->
  spans w !! id = Some s ->
  span_ended s = false ->
  spans (snd (simulateWork ctx w)) !! id
  = Some (mkSpan (span_name s) (span_parent s)
            (span_attrs s ++ work_attrs (draw w 0 mod 500) (draw w 1 mod 10))
            false).
Proof.
  intros Hc Hs He.
  pose proof (simulateWork_run ctx w) as H. cbv zeta in H.
  rewrite H, Hc. cbn [snd spans].
  destruct (sampled_duration (draw w 0 mod 500)) as [_ Hms];
    [apply Intn_range; lia|]. rewrite Hms.
  rewrite list_lookup_alter_eq, Hs. simpl. unfold add_attrs. rewrite He.
  reflexivity.
Qed.

Lemma simulateWork_clock (ctx : Context) (w : World) :
  clock (snd (simulateWork ctx w)) = clock w + (draw w 0 mod 500) * 1000000.
Proof.
  pose proof (simulateWork_run ctx w) as H. cbv zeta in H.
  rewrite H. cbn [snd clock].
  pose proof (Intn_range (draw w 0) 500 ltac:(lia)) as Hn.
  destruct (sampled_duration (draw w 0 mod 500) Hn) as [Hd _]. rewrite Hd.
  lia.
Qed.

Lemma simulateWork_log (ctx : Context) (w : World) :
  log_lines (snd (simulateWork ctx w))
  = (log_lines w ++
     (if draw w 1 mod 10 =? 0 then ["Simulated error occurred"] else []))%list.
Proof.
  pose proof (simulateWork_run ctx w) as H. cbv zeta in H.
  rewrite H. reflexivity.
Qed.

Lemma flags_error_draw (ctx : Context) (w : World) (id : nat) (s : Span) :
  ctx_span ctx = Some id ->
  spans w !! id = Some s ->
  span_ended s = false ->
  flags_error ctx w = (draw w 1 mod 10 =? 0).
Proof.
  intros Hc Hs He. unfold flags_error. cbv zeta. rewrite Hc.
  unfold attrs_of.
  rewrite (simulateWork_span ctx w id s Hc Hs He), Hs, simulateWork_log.
  cbn [span_attrs]. rewrite drop_app_length, length_app.
  unfold work_attrs.
  destruct (draw w 1 mod 10 =? 0); simpl.
  - apply Nat.eqb_eq. lia.
  - reflexivity.
Qed.

(** C5: simulateWork, called with a context whose span is recording,
    returns nothing but unit; it blocks for [n] milliseconds where [n] is
    its draw of [rand.Intn(500)], so 0 <= n < 500, and each value of that
    draw gives that many milliseconds; the span of the context gets
    work.type = "processing" and work.duration_ms = n, and, exactly when
    the second, separate draw of [rand.Intn(10)] is 0 (1 value of 10),
    also error=true, together with one log line; no other span changes
    and nothing is emitted on the instruments. *)
Theorem simulateWork_effect (ctx : Context) (w : World) (id : nat) (s : Span) :
  ctx_span ctx = Some id ->
  spans w !! id = Some s ->
  span_ended s = false ->
  let n := draw w 0 mod 500 in
  let e := draw w 1 mod 10 in
  let w' := snd (simulateWork ctx w) in
  fst (simulateWork ctx w) = tt
  /\ 0 <= n < 500
  /\ clock w' = clock w + n * 1000000
  /\ Forall (fun v => clock (snd (simulateWork ctx (with_draw w 0 v)))
                      = clock w + v * 1000000) (seqZ 0 500)
  /\ spans w' !! id
     = Some (mkSpan (span_name s) (span_parent s)
               (span_attrs s ++
                [("work.type", VString "processing");
                 ("work.duration_ms", VInt n)] ++
                (if e =? 0 then [("error", VBool true)] else []))
               false)
  /\ (forall j, j <> id -> spans w' !! j = spans w !! j)
  /\ log_lines w'
     = (log_lines w ++
        (if e =? 0 then ["Simulated error occurred"] else []))%list
  /\ flags_error ctx w = (e =? 0)
  /\ favourable 10 (fun v => flags_error ctx (with_draw w 1 v)) = 1%nat
  /\ metric_log w' = metric_log w.
Proof.
  intros Hc Hs He. cbv zeta.
  split; [destruct (simulateWork ctx w) as [[] ?]; reflexivity|].
  split; [apply Intn_range; lia|].
  split; [apply simulateWork_clock|].
  split.
  { apply Forall_forall. intros v Hv. apply elem_of_seqZ in Hv.
    rewrite simulateWork_clock, draw_with_draw. cbn [Nat.eqb].
    rewrite Z.mod_small by lia. reflexivity. }
  split; [apply (simulateWork_span ctx w id s Hc Hs He)|].
  split.
  { intros j Hj. pose proof (simulateWork_run ctx w) as H. cbv zeta in H.
    rewrite H, Hc. cbn [snd spans]. apply list_lookup_alter_ne. congruence. }
  split; [apply simulateWork_log|].
  split; [apply (flags_error_draw ctx w id s Hc Hs He)|].
  split.
  { rewrite (favourable_ext 10 _ (fun v => v mod 10 =? 0)).
    - vm_compute. reflexivity.
    - intros v.
      rewrite (flags_error_draw ctx (with_draw w 1 v) id s Hc Hs He).
      rewrite draw_with_draw. reflexivity. }
  pose proof (simulateWork_run ctx w) as H. cbv zeta in H.
  rewrite H. reflexivity.
Qed.

(** ** Routing *)

Lemma route_cases (path : string) :
  (path = "/health" /\ mux_handler registered path = Some healthHandler)
  \/ (path = "/work" /\ mux_handler registered path = Some workHandler)
  \/ (path = "/metrics" /\ mux_handler registered path = Some metricsHandler)
  \/ (path <> "/health" /\ path <> "/work" /\ path <> "/metrics"
      /\ mux_handler registered path = None).
Proof.
  unfold registered, HandleFunc. simpl.
  destruct (String.eqb path "/health") eqn:E1.
  { apply String.eqb_eq in E1. auto. }
  destruct (String.eqb path "/work") eqn:E2.
  { apply String.eqb_eq in E2. auto. }
  destruct (String.eqb path "/metrics") eqn:E3.
  { apply String.eqb_eq in E3. auto. }
  apply String.eqb_neq in E1, E2, E3. auto 10.
Qed.

Lemma draws_used_cases (r : Request) :
  draws_used r = (if String.eqb (r_Path r) "/work" then 5
                  else if String.eqb (r_Path r) "/metrics" then 2 else 0)%nat.
Proof. reflexivity. Qed.

(** The response of a routed request is a function of the draws ahead. *)
Lemma ServeHTTP_response_draws (r : Request) (w1 w2 : World) :
  (forall i, draw w1 i = draw w2 i) ->
  fst (ServeHTTP registered r w1) = fst (ServeHTTP registered r w2).
Proof.
  intros H. unfold ServeHTTP.
  destruct (route_cases (r_Path r)) as [[_ E]|[[_ E]|[[_ E]|[_ [_ [_ E]]]]]];
    rewrite E; unfold bind, ret.
  - destruct (healthHandler newRecorder r w1) eqn:E1.
    destruct (healthHandler newRecorder r w2) eqn:E2. cbn [fst].
    pose proof (healthHandler_response r w1) as R1.
    pose proof (healthHandler_response r w2) as R2.
    rewrite E1 in R1. rewrite E2 in R2. cbn [fst] in R1, R2. congruence.
  - destruct (workHandler newRecorder r w1) eqn:E1.
    destruct (workHandler newRecorder r w2) eqn:E2. cbn [fst].
    pose proof (workHandler_response r w1) as R1.
    pose proof (workHandler_response r w2) as R2.
    rewrite E1 in R1. rewrite E2 in R2. cbn [fst] in R1, R2.
    rewrite H in R1. congruence.
  - destruct (metricsHandler newRecorder r w1) eqn:E1.
    destruct (metricsHandler newRecorder r w2) eqn:E2. cbn [fst].
    pose proof (metricsHandler_response r w1) as R1.
    pose proof (metricsHandler_response r w2) as R2.
    rewrite E1 in R1. rewrite E2 in R2. cbn [fst] in R1, R2.
    rewrite !H in R1. congruence.
  - reflexivity.
Qed.

(** A routed request leaves the source as it is and moves the cursor by
    the number of its draws. *)
Lemma ServeHTTP_cursor (r : Request) (w : World) :
  rand_src (snd (ServeHTTP registered r w)) = rand_src w
  /\ rand_pos (snd (ServeHTTP registered r w)) = (draws_used r + rand_pos w)%nat.
Proof.
  unfold ServeHTTP. rewrite draws_used_cases.
  destruct (route_cases (r_Path r)) as [[P E]|[[P E]|[[P E]|[P1 [P2 [P3 E]]]]]];
    rewrite E; unfold bind, ret.
  - rewrite P. cbn [String.eqb Ascii.eqb Bool.eqb].
    rewrite healthHandler_run. split; reflexivity.
  - rewrite P. cbn [String.eqb Ascii.eqb Bool.eqb].
    pose proof (workHandler_run newRecorder r w) as H. cbv zeta in H.
    rewrite H. split; reflexivity.
  - rewrite P. cbn [String.eqb Ascii.eqb Bool.eqb].
    pose proof (metricsHandler_run newRecorder r w) as H. cbv zeta in H.
    rewrite H. split; reflexivity.
  - apply String.eqb_neq in P2, P3. rewrite P2, P3. split; reflexivity.
Qed.

Lemma ServeHTTP_draws_after (r : Request) (w : World) (i : nat) :
  draw (snd (ServeHTTP registered r w)) i = draw w (i + draws_used r).
Proof.
  destruct (ServeHTTP_cursor r w) as [Hs Hp]. unfold draw.
  rewrite Hs, Hp. f_equal. lia.
Qed.

Lemma responses_alone_ext (reqs : list Request) (f g : nat -> Z) :
  (forall i, f i = g i) -> responses_alone f reqs = responses_alone g reqs.
Proof.
  revert f g. induction reqs as [|r t IH]; intros f g H; [reflexivity|].
  simpl. f_equal.
  - apply ServeHTTP_response_draws. intros i. unfold draw, fresh_world. simpl.
    apply H.
  - apply IH. intros i. apply H.
Qed.

Lemma serve_all_alone (reqs : list Request) (w : World) :
  fst (serve_all registered reqs w) = responses_alone (draw w) reqs.
Proof.
  revert w. induction reqs as [|r t IH]; intros w; [reflexivity|].
  simpl. unfold bind, ret.
  destruct (ServeHTTP registered r w) as [resp w1] eqn:E1.
  destruct (serve_all registered t w1) as [rest w2] eqn:E2.
  cbn [fst]. f_equal.
  - replace resp with (fst (ServeHTTP registered r w)) by now rewrite E1.
    apply ServeHTTP_response_draws. intros i. unfold draw, fresh_world. simpl.
    f_equal. lia.
  - replace rest with (fst (serve_all registered t w1)) by now rewrite E2.
    rewrite IH. apply responses_alone_ext. intros i.
    replace w1 with (snd (ServeHTTP registered r w)) by now rewrite E1.
    apply ServeHTTP_draws_after.
Qed.

(** C7: two worlds that give a handler the same draws give the same
    response, whatever their histories (spans, emissions, log lines, clock,
    draws already consumed); and the responses to any sequence of requests
    are those each request gets alone, in a world without history, on its
    own draws. *)
Theorem no_state_across_requests (reqs : list Request) (r : Request)
    (w1 w2 : World) :
  (forall i, draw w1 i = draw w2 i) ->
  response_of (fst (healthHandler newRecorder r w1))
  = response_of (fst (healthHandler newRecorder r w2))
  /\ response_of (fst (workHandler newRecorder r w1))
     = response_of (fst (workHandler newRecorder r w2))
  /\ response_of (fst (metricsHandler newRecorder r w1))
     = response_of (fst (metricsHandler newRecorder r w2))
  /\ fst (serve_all registered reqs w1) = fst (serve_all registered reqs w2)
  /\ fst (serve_all registered reqs w1) = responses_alone (draw w1) reqs.
Proof.
  intros H.
  split; [now rewrite !healthHandler_response|].
  split; [now rewrite !workHandler_response, H|].
  split; [now rewrite !metricsHandler_response, !H|].
  split; [|apply serve_all_alone].
  rewrite !serve_all_alone. apply responses_alone_ext. exact H.
Qed.

(** C9: the mux does not look at the method, and for every method string
    each handler answers as it does for GET and leaves the same spans,
    clock, log and cursor; the counter and the histogram are tagged with
    the method string of the request as it is. *)
Theorem no_method_restriction (m path : string) (ctx : Context) (w : World) :
  let r := mkRequest m path ctx in
  let g := mkRequest "GET" path ctx in
  let same (h : Handler) :=
    fst (h newRecorder r w) = fst (h newRecorder g w)
    /\ spans (snd (h newRecorder r w)) = spans (snd (h newRecorder g w))
    /\ clock (snd (h newRecorder r w)) = clock (snd (h newRecorder g w))
    /\ log_lines (snd (h newRecorder r w)) = log_lines (snd (h newRecorder g w))
    /\ rand_pos (snd (h newRecorder r w)) = rand_pos (snd (h newRecorder g w)) in
  let tagged (h : Handler) (endpoint : string) :=
    exists status elapsed,
      emitted w (snd (h newRecorder r w))
      = [CounterAdd requestCounter 1
           [("method", VString m); ("endpoint", VString endpoint);
            ("status", VString status)];
         HistRecord requestDuration elapsed
           [("method", VString m); ("endpoint", VString endpoint)]] in
  fst (ServeHTTP registered r w) = fst (ServeHTTP registered g w)
  /\ response_of (fst (healthHandler newRecorder r w)) = mkResponse 200 [] "OK"
  /\ same healthHandler /\ same workHandler /\ same metricsHandler
  /\ tagged healthHandler "/health"
  /\ tagged workHandler "/work"
  /\ tagged metricsHandler "/metrics".
Proof.
  cbv zeta.
  split.
  { unfold ServeHTTP. cbn [r_Path].
    destruct (route_cases path) as [[_ E]|[[_ E]|[[_ E]|[_ [_ [_ E]]]]]];
      rewrite E; unfold bind, ret; [| | |reflexivity].
    - rewrite !healthHandler_run. reflexivity.
    - pose proof (workHandler_run newRecorder (mkRequest m path ctx) w) as H1.
      pose proof (workHandler_run newRecorder (mkRequest "GET" path ctx) w) as H2.
      cbv zeta in H1, H2. rewrite H1, H2. reflexivity.
    - pose proof (metricsHandler_run newRecorder (mkRequest m path ctx) w) as H1.
      pose proof (metricsHandler_run newRecorder (mkRequest "GET" path ctx) w) as H2.
      cbv zeta in H1, H2. rewrite H1, H2. reflexivity. }
  split; [apply healthHandler_response|].
  pose proof (workHandler_run newRecorder (mkRequest m path ctx) w) as W1.
  pose proof (workHandler_run newRecorder (mkRequest "GET" path ctx) w) as W2.
  pose proof (metricsHandler_run newRecorder (mkRequest m path ctx) w) as M1.
  pose proof (metricsHandler_run newRecorder (mkRequest "GET" path ctx) w) as M2.
  cbv zeta in W1, W2, M1, M2.
  split; [rewrite !healthHandler_run; repeat split|].
  split; [rewrite W1, W2; repeat split|].
  split; [rewrite M1, M2; repeat split|].
  split; [do 2 eexists; apply emitted_app; rewrite healthHandler_emitted;
          reflexivity|].
  split; [do 2 eexists; apply emitted_app; rewrite workHandler_emitted;
          reflexivity|].
  do 2 eexists; apply emitted_app; rewrite metricsHandler_emitted; reflexivity.
Qed.

(** ** Rounding *)

Lemma rne_bounds (a t B : Z) :
  0 <= a -> a < B * 2 ^ t -> 0 <= rne a t <= B.
Proof.
  intros Ha Hb. unfold rne.
  destruct (t <=? 0) eqn:Et.
  - apply Z.leb_le in Et.
    assert (2 ^ t = 1 \/ 2 ^ t = 0) as [E|E].
    { destruct (Z.eq_dec t 0) as [->|]; [left; reflexivity|].
      right. apply Z.pow_neg_r. lia. }
    all: rewrite E in Hb; lia.
  - apply Z.leb_gt in Et.
    assert (Hp : 0 < 2 ^ t) by (apply Z.pow_pos_nonneg; lia).
    assert (Hq : 0 <= a / 2 ^ t) by (apply Z.div_pos; lia).
    assert (Hq' : a / 2 ^ t < B) by (apply Z.div_lt_upper_bound; lia).
    cbv zeta.
    destruct (a mod 2 ^ t <? 2 ^ (t - 1)); [lia|].
    destruct (2 ^ (t - 1) <? a mod 2 ^ t); [lia|].
    destruct (Z.even (a / 2 ^ t)); lia.
Qed.

Lemma bitlen_le (m n : Z) : 0 <= n -> 0 <= m < 2 ^ n -> bitlen m <= n.
Proof.
  intros Hn Hm. unfold bitlen. destruct (m =? 0) eqn:E; [lia|].
  apply Z.eqb_neq in E.
  assert (Z.log2 m < n) by (apply Z.log2_lt_pow2; lia). lia.
Qed.

Lemma bitlen_spec (m : Z) : 0 <= m -> m < 2 ^ bitlen m.
Proof.
  intros Hm. unfold bitlen. destruct (m =? 0) eqn:E.
  - apply Z.eqb_eq in E. subst m. reflexivity.
  - apply Z.eqb_neq in E. pose proof (Z.log2_spec m ltac:(lia)). lia.
Qed.

Lemma bitlen_gt (m n : Z) : 0 <= m -> 0 <= n -> n < bitlen m -> 2 ^ n <= m.
Proof.
  intros Hm Hn H. unfold bitlen in H. destruct (m =? 0) eqn:E; [lia|].
  apply Z.eqb_neq in E. apply Z.log2_le_pow2; lia.
Qed.

Lemma rne_near (a t : Z) :
  0 < t -> 0 <= a ->
  0 <= rne a t /\ Z.abs (rne a t * 2 ^ t - a) <= 2 ^ (t - 1).
Proof.
  intros Ht Ha. unfold rne.
  destruct (t <=? 0) eqn:Et; [apply Z.leb_le in Et; lia|]. cbv zeta.
  assert (E2 : 2 ^ t = 2 * 2 ^ (t - 1)).
  { replace t with (Z.succ (t - 1)) at 1 by lia. apply Z.pow_succ_r. lia. }
  assert (Hp : 0 < 2 ^ (t - 1)) by (apply Z.pow_pos_nonneg; lia).
  set (P := 2 ^ (t - 1)) in *. rewrite E2.
  pose proof (Z.div_mod a (2 * P) ltac:(lia)) as Hdm.
  pose proof (Z.mod_pos_bound a (2 * P) ltac:(lia)) as Hr.
  assert (Hq : 0 <= a / (2 * P)) by (apply Z.div_pos; lia).
  set (q := a / (2 * P)) in *. set (r := a mod (2 * P)) in *.
  destruct (r <? P) eqn:E1; [apply Z.ltb_lt in E1; split; [lia|nia]|].
  apply Z.ltb_ge in E1.
  destruct (P <? r) eqn:E3; [apply Z.ltb_lt in E3; split; [lia|nia]|].
  apply Z.ltb_ge in E3.
  destruct (Z.even q); split; try lia; nia.
Qed.

(** What round53 returns, for an argument of at most 53 + 10 bits. *)
Lemma round53_cases (m e : Z) :
  0 <= m ->
  (bitlen m <= 53 /\ round53 m e = mkF64 m e)
  \/ (exists s r, s = bitlen m - 53 /\ 0 < s /\ r = rne m s
       /\ 0 <= r <= 2 ^ 53
       /\ Z.abs (r * 2 ^ s - m) <= 2 ^ (s - 1)
       /\ round53 m e = (if r =? 2 ^ 53 then mkF64 (2 ^ 52) (e + s + 1)
                         else mkF64 r (e + s))).
Proof.
  intros Hm. unfold round53. cbv zeta.
  destruct (bitlen m <=? 53) eqn:Eb.
  - left. apply Z.leb_le in Eb. auto.
  - right. apply Z.leb_gt in Eb.
    exists (bitlen m - 53), (rne m (bitlen m - 53)).
    destruct (rne_near m (bitlen m - 53) ltac:(lia) Hm) as [H0 Hn].
    repeat split; try lia; try assumption.
    pose proof (bitlen_spec m Hm) as Hb.
    set (s := bitlen m - 53) in *.
    assert (Es : 2 ^ bitlen m = 2 ^ 53 * 2 ^ s).
    { replace (bitlen m) with (53 + s) by lia. apply Z.pow_add_r; lia. }
    assert (E2 : 2 ^ s = 2 * 2 ^ (s - 1)).
    { replace s with (Z.succ (s - 1)) at 1 by lia. apply Z.pow_succ_r. lia. }
    assert (Hp : 0 < 2 ^ (s - 1)) by (apply Z.pow_pos_nonneg; lia).
    rewrite Es in Hb. rewrite E2 in *.
    set (P := 2 ^ (s - 1)) in *. set (r := rne m s) in *.
    nia.
Qed.
Ltac ground_pos p :=
  lazymatch p with
  | xH => idtac
  | xO ?q => ground_pos q
  | xI ?q => ground_pos q
  end.

Ltac ground_Z n :=
  lazymatch n with
  | Z0 => idtac
  | Zpos ?p => ground_pos p
  | Zneg ?p => ground_pos p
  | Z.opp ?a => ground_Z a
  | Z.add ?a ?b => ground_Z a; ground_Z b
  | Z.sub ?a ?b => ground_Z a; ground_Z b
  end.

(** Replace the powers of two with a closed exponent by their values. *)
Ltac pow2_values :=
  repeat match goal with
         | |- context [2 ^ ?n] =>
             ground_Z n;
             let v := eval vm_compute in (2 ^ n) in
             progress change (2 ^ n) with v
         | H : context [2 ^ ?n] |- _ =>
             ground_Z n;
             let v := eval vm_compute in (2 ^ n) in
             progress change (2 ^ n) with v in H
         end.

(** rand.Float64() is a double of [0, 1). *)
Lemma Float64_of_range (r : Z) :
  0 <= mant (Float64_of r) < 2 ^ 53 /\ -63 <= expo (Float64_of r) <= -53.
Proof.
  unfold Float64_of, float64_of_int, fdiv_pow2.
  assert (Hi : 0 <= r mod (2 ^ 63 - 512) < 2 ^ 63 - 512)
    by (apply Z.mod_pos_bound; reflexivity).
  set (i := r mod (2 ^ 63 - 512)) in *.
  destruct (round53_cases i 0 ltac:(lia))
    as [[Hb E] | (s & q & Es & Hs & Eq & Hq & Hn & E)]; rewrite E.
  - cbn [mant expo]. pose proof (bitlen_spec i ltac:(lia)) as Hi'.
    assert (2 ^ bitlen i <= 2 ^ 53) by (apply Z.pow_le_mono_r; lia). lia.
  - assert (Hb : bitlen i <= 63) by (apply bitlen_le; lia).
    assert (Hc : s = 1 \/ s = 2 \/ s = 3 \/ s = 4 \/ s = 5 \/ s = 6
                 \/ s = 7 \/ s = 8 \/ s = 9 \/ s = 10) by lia.
    clear Es Hb E Eq.
    destruct (q =? 2 ^ 53) eqn:E53; cbn [mant expo].
    + apply Z.eqb_eq in E53. subst q.
      destruct Hc as [Hc|[Hc|[Hc|[Hc|[Hc|[Hc|[Hc|[Hc|[Hc|Hc]]]]]]]]];
        subst s; pow2_values; lia.
    + apply Z.eqb_neq in E53. lia.
Qed.

Lemma fmul_f1024 (x : float64) :
  0 <= mant x < 2 ^ 53 -> fmul x f1024 = mkF64 (mant x) (expo x + 10).
Proof.
  intros H. unfold fmul, f1024, round53. cbn [mant expo].
  rewrite Z.mul_1_r.
  pose proof (bitlen_le (mant x) 53 ltac:(lia) H) as Hb.
  apply Z.leb_le in Hb. rewrite Hb. reflexivity.
Qed.

(** memoryUsage: the three products by 1024 are exact. *)
Lemma memory_usage_value (x : float64) :
  0 <= mant x < 2 ^ 53 ->
  fmul (fmul (fmul x f1024) f1024) f1024 = mkF64 (mant x) (expo x + 10 + 10 + 10).
Proof.
  intros Hx.
  rewrite (fmul_f1024 x) by exact Hx.
  rewrite (fmul_f1024 (mkF64 _ _)) by exact Hx. cbn [mant expo].
  rewrite (fmul_f1024 (mkF64 _ _)) by exact Hx. reflexivity.
Qed.

Lemma exponent_cases (e : Z) :
  -63 <= e <= -53 ->
  e = -63 \/ e = -62 \/ e = -61 \/ e = -60 \/ e = -59 \/ e = -58
  \/ e = -57 \/ e = -56 \/ e = -55 \/ e = -54 \/ e = -53.
Proof. lia. Qed.

(** cpuUsage: the product by 100 of a double below 1 is rounded to a
    double below 100. *)
Lemma cpu_usage_bounds (x : float64) :
  0 <= mant x < 2 ^ 53 -> -63 <= expo x <= -53 ->
  let c := fmul x f100 in
  expo c < 0 /\ 0 <= mant c /\ mant c < 100 * 2 ^ (- expo c).
Proof.
  intros Hm He. cbv zeta. unfold fmul, f100. cbn [mant expo].
  set (m := mant x * 25).
  assert (Hm25 : 0 <= m <= 25 * 2 ^ 53 - 25) by (subst m; lia).
  destruct (round53_cases m (expo x + 2) ltac:(lia))
    as [[Hb E] | (s & q & Es & Hs & Eq & Hq & Hn & E)]; rewrite E.
  - cbn [mant expo]. pose proof (bitlen_spec m ltac:(lia)) as Hm'.
    assert (2 ^ bitlen m <= 2 ^ 53) by (apply Z.pow_le_mono_r; lia).
    destruct (exponent_cases _ He) as
      [Hc|[Hc|[Hc|[Hc|[Hc|[Hc|[Hc|[Hc|[Hc|[Hc|Hc]]]]]]]]]];
      rewrite Hc; pow2_values; lia.
  - assert (Hb : bitlen m <= 58) by (apply bitlen_le; lia).
    assert (Hc : s = 1 \/ s = 2 \/ s = 3 \/ s = 4 \/ s = 5) by lia.
    clear Es Hb E Eq.
    destruct (q =? 2 ^ 53) eqn:E53; cbn [mant expo].
    + apply Z.eqb_eq in E53. subst q.
      destruct Hc as [Hc|[Hc|[Hc|[Hc|Hc]]]]; subst s;
        destruct (exponent_cases _ He) as
          [Hc|[Hc|[Hc|[Hc|[Hc|[Hc|[Hc|[Hc|[Hc|[Hc|Hc]]]]]]]]]];
        rewrite Hc; pow2_values; lia.
    + apply Z.eqb_neq in E53.
      destruct Hc as [Hc|[Hc|[Hc|[Hc|Hc]]]]; subst s;
        destruct (exponent_cases _ He) as
          [Hc|[Hc|[Hc|[Hc|[Hc|[Hc|[Hc|[Hc|[Hc|[Hc|Hc]]]]]]]]]];
        rewrite Hc; pow2_values; lia.
Qed.

Lemma hundredths_bounds (x : float64) (B : Z) :
  expo x < 0 -> 0 <= mant x -> mant x < B * 2 ^ (- expo x) ->
  0 <= hundredths x <= B * 100.
Proof.
  intros He Hm Hb. unfold hundredths.
  destruct (0 <=? expo x) eqn:E; [apply Z.leb_le in E; lia|].
  apply rne_bounds; [lia|].
  assert (0 < 2 ^ (- expo x)) by (apply Z.pow_pos_nonneg; lia). nia.
Qed.

(** ** Reading decimal digits back *)

Lemma digit_cases (d : Z) :
  0 <= d < 10 ->
  d = 0 \/ d = 1 \/ d = 2 \/ d = 3 \/ d = 4 \/ d = 5 \/ d = 6 \/ d = 7
  \/ d = 8 \/ d = 9.
Proof. lia. Qed.

Ltac each_digit d H :=
  destruct (digit_cases d H) as
    [-> | [-> | [-> | [-> | [-> | [-> | [-> | [-> | [-> | ->]]]]]]]]].

Lemma step_first_digit (k : string) (ms : Members) (d : Z) :
  0 < d < 10 -> step (PValue k) ms (digit_char d) = (PInt k false d, ms).
Proof.
  intros H. assert (H' : 0 <= d < 10) by lia.
  each_digit d H'; try lia; reflexivity.
Qed.

Lemma step_int_digit (k : string) (neg : bool) (acc : Z) (ms : Members) (d : Z) :
  0 <= d < 10 ->
  step (PInt k neg acc) ms (digit_char d) = (PInt k neg (acc * 10 + d), ms).
Proof. intros H. each_digit d H; reflexivity. Qed.

Lemma step_dot_digit (k : string) (neg : bool) (acc : Z) (ms : Members) (d : Z) :
  0 <= d < 10 ->
  step (PDot k neg acc) ms (digit_char d) = (PFrac k neg (acc * 10 + d) 1, ms).
Proof. intros H. each_digit d H; reflexivity. Qed.

Lemma step_frac_digit (k : string) (neg : bool) (acc : Z) (n : nat)
    (ms : Members) (d : Z) :
  0 <= d < 10 ->
  step (PFrac k neg acc n) ms (digit_char d)
  = (PFrac k neg (acc * 10 + d) (S n), ms).
Proof. intros H. each_digit d H; reflexivity. Qed.

Lemma append_assoc (a b c : string) : (a ++ b) ++ c = a ++ (b ++ c).
Proof. induction a as [|x a IH]; simpl; [reflexivity|]. now rewrite IH. Qed.

Lemma digits_fuel_app (f : nat) (u : Z) (acc rest : string) :
  digits_fuel f u acc ++ rest = digits_fuel f u (acc ++ rest).
Proof.
  revert u acc. induction f as [|f IH]; intros u acc; simpl; [reflexivity|].
  destruct (u <? 10); [reflexivity|]. apply IH.
Qed.

Lemma run_digits (k : string) (ms : Members) (f : nat) (u : Z) (rest : string) :
  0 < u < 2 ^ Z.of_nat f ->
  run (PValue k) ms (digits_fuel f u rest) = run (PInt k false u) ms rest.
Proof.
  revert u rest. induction f as [|f IH]; intros u rest Hu.
  { simpl in Hu. lia. }
  cbn [digits_fuel].
  assert (Hd : 0 <= u mod 10 < 10) by (apply Z.mod_pos_bound; lia).
  destruct (u <? 10) eqn:E.
  - apply Z.ltb_lt in E. rewrite Z.mod_small by lia.
    cbn [run]. rewrite step_first_digit by lia. reflexivity.
  - apply Z.ltb_ge in E.
    rewrite IH.
    + cbn [run]. rewrite step_int_digit by exact Hd.
      replace (u / 10 * 10 + u mod 10) with u; [reflexivity|].
      Z.div_mod_to_equations; lia.
    + rewrite Nat2Z.inj_succ, Z.pow_succ_r in Hu by lia.
      Z.div_mod_to_equations; lia.
Qed.

Lemma run_utoa (k : string) (ms : Members) (n : Z) (rest : string) :
  0 <= n ->
  run (PValue k) ms (utoa n ++ rest)
  = run (if n =? 0 then PZero k false else PInt k false n) ms rest.
Proof.
  intros Hn. unfold utoa. rewrite digits_fuel_app. cbn [append].
  destruct (n =? 0) eqn:E.
  - apply Z.eqb_eq in E. subst n. reflexivity.
  - apply Z.eqb_neq in E. apply run_digits.
    rewrite Nat2Z.inj_succ, Z2Nat.id by apply Z.log2_nonneg.
    pose proof (Z.log2_spec n ltac:(lia)). lia.
Qed.

Lemma step_zero_dot (k : string) (neg : bool) (ms : Members) :
  step (PZero k neg) ms "." = (PDot k neg 0, ms).
Proof. reflexivity. Qed.

Lemma step_int_dot (k : string) (neg : bool) (acc : Z) (ms : Members) :
  step (PInt k neg acc) ms "." = (PDot k neg acc, ms).
Proof. reflexivity. Qed.

Lemma run_format2 (k : string) (ms : Members) (x : float64) (rest : string) :
  0 <= hundredths x ->
  run (PValue k) ms (format2 x ++ rest)
  = run (PFrac k false (hundredths x) 2) ms rest.
Proof.
  intros Hh. unfold format2. cbv zeta. set (h := hundredths x) in *.
  rewrite append_assoc. rewrite run_utoa by (apply Z.div_pos; lia).
  cbn [append run].
  assert (H1 : 0 <= h mod 100 / 10 < 10) by (Z.div_mod_to_equations; lia).
  assert (H0 : 0 <= h mod 10 < 10) by (apply Z.mod_pos_bound; lia).
  assert (Hh' : (h / 100 * 10 + h mod 100 / 10) * 10 + h mod 10 = h)
    by (Z.div_mod_to_equations; lia).
  destruct (h / 100 =? 0) eqn:E.
  - apply Z.eqb_eq in E. rewrite E in Hh'.
    rewrite step_zero_dot, step_dot_digit, step_frac_digit by assumption.
    rewrite Hh'. reflexivity.
  - rewrite step_int_dot, step_dot_digit, step_frac_digit by assumption.
    rewrite Hh'. reflexivity.
Qed.

Lemma run_app (st : PState) (ms : Members) (s1 s2 : string) :
  run st ms (s1 ++ s2) = let '(st', ms') := run st ms s1 in run st' ms' s2.
Proof.
  revert st ms. induction s1 as [|c s1 IH]; intros st ms; [reflexivity|].
  cbn [append run]. destruct (step st ms c) as [st' ms']. apply IH.
Qed.


Lemma metrics_body_parts (c m : float64) :
  metrics_body c m
  = body_open ++ format2 c ++ body_middle ++ format2 m ++ "}".
Proof. reflexivity. Qed.

Lemma run_body_open : run POpen [] body_open = (PValue "cpu_usage", []).
Proof. reflexivity. Qed.

Lemma run_body_middle (k : string) (acc : Z) (ms : Members) :
  run (PFrac k false acc 2) ms body_middle
  = (PValue "memory_usage", (ms ++ [(k, mkNumber false acc 2)])%list).
Proof. reflexivity. Qed.

Lemma run_body_close (k : string) (acc : Z) (ms : Members) :
  run (PFrac k false acc 2) ms "}"
  = (PDone, (ms ++ [(k, mkNumber false acc 2)])%list).
Proof. reflexivity. Qed.

Lemma parse_metrics_body (c m : float64) :
  0 <= hundredths c -> 0 <= hundredths m ->
  parse_object (metrics_body c m)
  = Some [("cpu_usage", mkNumber false (hundredths c) 2);
          ("memory_usage", mkNumber false (hundredths m) 2)].
Proof.
  intros Hc Hm. unfold parse_object. rewrite metrics_body_parts.
  rewrite run_app, run_body_open.
  rewrite run_format2 by exact Hc.
  rewrite run_app, run_body_middle.
  rewrite run_format2 by exact Hm.
  rewrite run_body_close. reflexivity.
Qed.

(** ** Values as rationals *)

Lemma F2Q_bounds (x : float64) (B : Z) :
  expo x < 0 -> 0 <= mant x -> mant x < B * 2 ^ (- expo x) ->
  (0 <= F2Q x)%Q /\ (F2Q x < inject_Z B)%Q.
Proof.
  intros He Hm Hb. unfold F2Q.
  destruct (0 <=? expo x) eqn:E; [apply Z.leb_le in E; lia|].
  assert (Hp : 0 < 2 ^ (- expo x)) by (apply Z.pow_pos_nonneg; lia).
  unfold Qle, Qlt. cbn [Qnum Qden inject_Z].
  rewrite Z2Pos.id by exact Hp. lia.
Qed.

Lemma number_value_bounds (h B : Z) :
  0 <= h <= B * 100 ->
  (0 <= number_value (mkNumber false h 2))%Q
  /\ (number_value (mkNumber false h 2) <= inject_Z B)%Q.
Proof.
  intros H. unfold number_value. cbn [num_neg num_digits num_scale].
  change (Pos.of_nat (10 ^ 2)) with 100%positive.
  unfold Qle. cbn [Qnum Qden inject_Z]. lia.
Qed.

(** The printed number is the value rounded to the nearest hundredth. *)
Lemma number_value_near (x : float64) :
  expo x < 0 -> 0 <= mant x ->
  (F2Q x - (1 # 200) <= number_value (mkNumber false (hundredths x) 2))%Q
  /\ (number_value (mkNumber false (hundredths x) 2) <= F2Q x + (1 # 200))%Q.
Proof.
  intros He Hm. unfold number_value, hundredths, F2Q.
  cbn [num_neg num_digits num_scale].
  change (Pos.of_nat (10 ^ 2)) with 100%positive.
  destruct (0 <=? expo x) eqn:E; [apply Z.leb_le in E; lia|].
  set (t := - expo x) in *.
  destruct (rne_near (mant x * 100) t ltac:(lia) ltac:(lia)) as [H0 Hn].
  assert (E2 : 2 ^ t = 2 * 2 ^ (t - 1)).
  { replace t with (Z.succ (t - 1)) at 1 by lia. apply Z.pow_succ_r. lia. }
  assert (Hp : 0 < 2 ^ (t - 1)) by (apply Z.pow_pos_nonneg; lia).
  unfold Qminus. unfold Qle, Qplus, Qopp. cbn [Qnum Qden].
  rewrite !Pos2Z.inj_mul, !Z2Pos.id by lia.
  rewrite E2 in *. set (P := 2 ^ (t - 1)) in *.
  set (h := rne (mant x * 100) t) in *.
  split; nia.
Qed.

(** C3, as the code has it: the metrics handler answers 200 with
    Content-Type application/json and the body of line 209 filled with the
    two readings printed by [%.2f]; cpuUsage is in [0, 100) and memoryUsage
    in [0, 2^30); the body is a JSON object whose two numbers are the
    readings rounded to the nearest hundredth, hence in [0, 100] and in
    [0, 2^30], both ends included. *)
Theorem metrics_response (r : Request) (w : World) :
  let cpuUsage := fmul (Float64_of (draw w 0)) f100 in
  let memoryUsage :=
    fmul (fmul (fmul (Float64_of (draw w 1)) f1024) f1024) f1024 in
  let resp := response_of (fst (metricsHandler newRecorder r w)) in
  let c := mkNumber false (hundredths cpuUsage) 2 in
  let m := mkNumber false (hundredths memoryUsage) 2 in
  resp_status resp = 200
  /\ header_get "Content-Type" (resp_header resp) = Some "application/json"
  /\ resp_body resp
     = "{" ++ dquote ++ "cpu_usage" ++ dquote ++ ": " ++ format2 cpuUsage ++
       ", " ++ dquote ++ "memory_usage" ++ dquote ++ ": " ++
       format2 memoryUsage ++ "}"
  /\ (0 <= F2Q cpuUsage)%Q /\ (F2Q cpuUsage < inject_Z 100)%Q
  /\ (0 <= F2Q memoryUsage)%Q /\ (F2Q memoryUsage < inject_Z (2 ^ 30))%Q
  /\ parse_object (resp_body resp)
     = Some [("cpu_usage", c); ("memory_usage", m)]
  /\ (0 <= number_value c)%Q /\ (number_value c <= inject_Z 100)%Q
  /\ (0 <= number_value m)%Q /\ (number_value m <= inject_Z (2 ^ 30))%Q
  /\ (F2Q cpuUsage - (1 # 200) <= number_value c)%Q
  /\ (number_value c <= F2Q cpuUsage + (1 # 200))%Q
  /\ (F2Q memoryUsage - (1 # 200) <= number_value m)%Q
  /\ (number_value m <= F2Q memoryUsage + (1 # 200))%Q.
Proof.
  cbv zeta. rewrite metricsHandler_response.
  cbn [resp_status resp_header resp_body header_get String.eqb Ascii.eqb Bool.eqb].
  destruct (Float64_of_range (draw w 0)) as [Hm0 He0].
  destruct (Float64_of_range (draw w 1)) as [Hm1 He1].
  destruct (cpu_usage_bounds _ Hm0 He0) as (Hce & Hcm & Hcb).
  rewrite (memory_usage_value _ Hm1).
  set (cpu := fmul (Float64_of (draw w 0)) f100) in *.
  set (mem := mkF64 (mant (Float64_of (draw w 1)))
                    (expo (Float64_of (draw w 1)) + 10 + 10 + 10)).
  assert (Hme : expo mem < 0) by (subst mem; cbn [expo]; lia).
  assert (Hmm : 0 <= mant mem) by (subst mem; cbn [mant]; lia).
  assert (Hmb : mant mem < 2 ^ 30 * 2 ^ (- expo mem)).
  { subst mem. cbn [mant expo].
    destruct (exponent_cases _ He1) as
      [Hc|[Hc|[Hc|[Hc|[Hc|[Hc|[Hc|[Hc|[Hc|[Hc|Hc]]]]]]]]]];
      rewrite Hc; pow2_values; lia. }
  destruct (hundredths_bounds cpu 100 Hce Hcm Hcb) as [Hc0 Hc1].
  destruct (hundredths_bounds mem (2 ^ 30) Hme Hmm Hmb) as [Hm0' Hm1'].
  split; [reflexivity|]. split; [reflexivity|]. split; [reflexivity|].
  split; [apply (F2Q_bounds cpu 100); assumption|].
  split; [apply (F2Q_bounds cpu 100); assumption|].
  split; [apply (F2Q_bounds mem (2 ^ 30)); assumption|].
  split; [apply (F2Q_bounds mem (2 ^ 30)); assumption|].
  split; [apply parse_metrics_body; assumption|].
  split; [apply (number_value_bounds _ 100); lia|].
  split; [apply (number_value_bounds _ 100); lia|].
  split; [apply (number_value_bounds _ (2 ^ 30)); lia|].
  split; [apply (number_value_bounds _ (2 ^ 30)); lia|].
  split; [apply number_value_near; assumption|].
  split; [apply number_value_near; assumption|].
  split; apply number_value_near; assumption.
Qed.


(** C3 as stated fails: when the source answers 2^63 - 1024 twice,
    cpuUsage is 100 - 2^-46 and memoryUsage is 2^30 - 2^-23, both below
    their bounds, and the body reads cpu_usage 100.00 and memory_usage
    1073741824.00, which are not below 100 and 2^30. *)
Lemma metrics_body_reaches_upper_bounds :
  let resp := response_of (fst (metricsHandler newRecorder r_metrics w_top)) in
  let cpuUsage := fmul (Float64_of (draw w_top 0)) f100 in
  let memoryUsage :=
    fmul (fmul (fmul (Float64_of (draw w_top 1)) f1024) f1024) f1024 in
  cpuUsage = mkF64 (25 * 2 ^ 48 - 1) (-46)
  /\ memoryUsage = mkF64 (2 ^ 53 - 1) (-23)
  /\ (F2Q cpuUsage < inject_Z 100)%Q
  /\ (F2Q memoryUsage < inject_Z (2 ^ 30))%Q
  /\ resp_body resp
     = "{" ++ dquote ++ "cpu_usage" ++ dquote ++ ": 100.00, " ++
       dquote ++ "memory_usage" ++ dquote ++ ": 1073741824.00}"
  /\ parse_object (resp_body resp)
     = Some [("cpu_usage", mkNumber false 10000 2);
             ("memory_usage", mkNumber false 107374182400 2)]
  /\ ~ (number_value (mkNumber false 10000 2) < inject_Z 100)%Q
  /\ ~ (number_value (mkNumber false 107374182400 2) < inject_Z (2 ^ 30))%Q.
Proof.
  cbv zeta.
  split; [vm_compute; reflexivity|].
  split; [vm_compute; reflexivity|].
  split; [vm_compute; reflexivity|].
  split; [vm_compute; reflexivity|].
  split; [vm_compute; reflexivity|].
  split; [vm_compute; reflexivity|].
  split; intros H; vm_compute in H; discriminate H.
Qed.

(** ** Start-up *)

(** C8: initTelemetry returns an error exactly when one of its five
    construction steps (resource, trace exporter, metric exporter, counter,
    histogram) fails, and when it returns nil the four handles are
    assigned. main ends in os.Exit(1) after a fatal log line exactly when
    a construction step fails or ListenAndServe returns an error, and
    serves otherwise; it serves only with the four handles assigned and
    the three handlers registered. When initialization fails nothing is
    registered, no listener is tried and the fatal line is the only log
    line; when only the listener fails the fatal line is the last one. *)
Theorem startup_fails_fatally (env : Env) (g : Globals) :
  let init := initTelemetry env g in
  let boot := main env in
  let bind_error := env_ListenAndServe env (listen_addr env) in
  (fst init <> None <-> construction_fails env)
  /\ match fst init with
     | None => handles_initialized (snd init)
     | Some _ => True
     end
  /\ (fst boot = Exited 1 <-> construction_fails env \/ bind_error <> None)
  /\ (fst boot = Serving (listen_addr env)
      <-> ~ construction_fails env /\ bind_error = None)
  /\ match fst boot with
     | Exited code => code <> 0
     | Serving _ =>
         handles_initialized (p_globals (snd boot))
         /\ p_routes (snd boot) = registered
     end
  /\ match fst (initTelemetry env zero_globals) with
     | Some e =>
         p_routes (snd boot) = []
         /\ p_listen (snd boot) = []
         /\ p_log (snd boot)
            = ["Failed to initialize telemetry: " ++ error_string e]
     | None =>
         p_listen (snd boot) = [listen_addr env]
         /\ match bind_error with
            | Some e =>
                last (p_log (snd boot))
                = Some ("Server failed to start: " ++ error_string e)
            | None => True
            end
     end.
Proof.
  cbv zeta. unfold construction_fails, handles_initialized, main, listen_addr.
  destruct env as [e1 e2 e3 e4 e5 port listen]. cbn [env_resource_New
    env_otlptracehttp_New env_otlpmetrichttp_New env_Int64Counter
    env_Float64Histogram env_PORT env_ListenAndServe].
  unfold initTelemetry. cbn [env_resource_New
    env_otlptracehttp_New env_otlpmetrichttp_New env_Int64Counter
    env_Float64Histogram env_PORT env_ListenAndServe].
  destruct e1, e2, e3, e4, e5; cbn -[String.eqb append];
    try destruct (listen _); cbn -[String.eqb append];
    intuition (try congruence; try discriminate).
Qed.

(** ** The theorems with hypotheses, at concrete worlds *)

Lemma simulateWork_effect_witness :
  (ctx_span c_test = Some 0%nat
   /\ spans w_test !! 0%nat = Some s_test
   /\ span_ended s_test = false)
  /\ clock (snd (simulateWork c_test w_test)) = 7000000
  /\ spans (snd (simulateWork c_test w_test)) !! 0%nat
     = Some (mkSpan "test_span" None
               [("work.type", VString "processing");
                ("work.duration_ms", VInt 7)] false)
  /\ log_lines (snd (simulateWork c_test w_test)) = [].
Proof.
  split; [repeat split|].
  pose proof (simulateWork_effect c_test w_test 0%nat s_test
                eq_refl eq_refl eq_refl) as H.
  cbv zeta in H. destruct H as (_ & _ & Hc & _ & Hs & _ & Hl & _).
  split; [exact Hc|]. split; [exact Hs | exact Hl].
Defined.

Lemma no_state_across_requests_witness :
  (forall i, draw w_new i = draw w_old i)
  /\ fst (serve_all registered reqs_test w_new)
     = fst (serve_all registered reqs_test w_old).
Proof.
  assert (H : forall i, draw w_new i = draw w_old i).
  { intros i. unfold draw, w_new, w_old, fresh_world. simpl. f_equal. lia. }
  split; [exact H|].
  destruct (no_state_across_requests reqs_test
              (mkRequest "GET" "/work" context_Background) w_new w_old H)
    as (_ & _ & _ & Hs & _).
  exact Hs.
Defined.

(** * Further properties: tests, benchmarks, telemetry and scripts *)

Example contains_1 : contains "hello world" "lo w" = Ret true. Proof. reflexivity. Qed.
Example contains_2 : contains "hello" "hello!" = Ret false. Proof. reflexivity. Qed.
Example contains_3 : contains "abc" EmptyString = Ret true. Proof. reflexivity. Qed.
Example contains_4 : containsHelper "ab" "abc" = Ret false. Proof. reflexivity. Qed.
Example contains_5 : contains "abcabd" "abd" = Ret true. Proof. reflexivity. Qed.
Example contains_6 : contains "abcabd" "acd" = Ret false. Proof. reflexivity. Qed.

Lemma length_append (a b : string) :
  String.length (a ++ b) = (String.length a + String.length b)%nat.
Proof. induction a as [|c a IH]; simpl; [reflexivity|]. now rewrite IH. Qed.

Lemma append_empty_r (a : string) : a ++ EmptyString = a.
Proof. induction a as [|c a IH]; simpl; [reflexivity|]. now rewrite IH. Qed.

Lemma substring_0_append (a b : string) :
  substring 0 (String.length a) (a ++ b) = a.
Proof.
  induction a as [|c a IH]; simpl.
  - destruct b; reflexivity.
  - now rewrite IH.
Qed.

Lemma substring_skip (pre t : string) (m : nat) :
  substring (String.length pre) m (pre ++ t) = substring 0 m t.
Proof. induction pre as [|c pre IH]; simpl; [reflexivity|]. exact IH. Qed.

(** A substring that lies inside [s] splits [s] around itself. *)
Lemma substring_split (s : string) (n m : nat) :
  (n + m <= String.length s)%nat ->
  exists pre post,
    s = pre ++ substring n m s ++ post /\ String.length pre = n.
Proof.
  revert n m. induction s as [|c s IH]; intros n m H.
  - simpl in H. assert (n = 0%nat) by lia. assert (m = 0%nat) by lia. subst.
    exists EmptyString, EmptyString. split; reflexivity.
  - destruct n as [|n].
    + destruct m as [|m].
      * exists EmptyString, (String c s). split; reflexivity.
      * simpl in H. destruct (IH 0%nat m ltac:(simpl; lia)) as (pre & post & E & L).
        destruct pre; [|discriminate L]. simpl in E.
        exists EmptyString, post. split; [|reflexivity].
        simpl. f_equal. exact E.
    + simpl in H. destruct (IH n m ltac:(lia)) as (pre & post & E & L).
      exists (String c pre), post. split; simpl; [f_equal; exact E | now f_equal].
Qed.

(** An occurrence, by its index. *)
Lemma occurs_index (substr s : string) :
  occurs substr s <->
  exists j : nat,
    (j + String.length substr <= String.length s)%nat
    /\ substring j (String.length substr) s = substr.
Proof.
  split.
  - intros (pre & post & ->). exists (String.length pre).
    rewrite !length_append. split; [lia|].
    rewrite substring_skip. apply substring_0_append.
  - intros (j & Hj & E).
    destruct (substring_split s j (String.length substr) Hj) as (pre & post & Es & _).
    rewrite E in Es. exists pre, post. exact Es.
Qed.

Lemma slice_in_range (s : string) (lo hi : Z) :
  0 <= lo <= hi -> hi <= len s ->
  slice s lo hi = Some (substring (Z.to_nat lo) (Z.to_nat (hi - lo)) s).
Proof.
  intros H1 H2. unfold slice.
  replace (0 <=? lo) with true by (symmetry; apply Z.leb_le; lia).
  replace (lo <=? hi) with true by (symmetry; apply Z.leb_le; lia).
  replace (hi <=? len s) with true by (symmetry; apply Z.leb_le; lia).
  reflexivity.
Qed.

Lemma containsHelper_from_spec (fuel : nat) (s substr : string) (i : Z) :
  0 <= i -> Z.max 0 (len s - len substr - i + 1) < Z.of_nat fuel ->
  exists b,
    containsHelper_from fuel s substr i = Ret b
    /\ (b = true <->
        exists j : nat,
          i <= Z.of_nat j
          /\ (j + String.length substr <= String.length s)%nat
          /\ substring j (String.length substr) s = substr).
Proof.
  revert i. induction fuel as [|f IH]; intros i Hi Hf; [simpl in Hf; lia|].
  cbn [containsHelper_from].
  destruct (i <=? len s - len substr) eqn:E.
  - apply Z.leb_le in E.
    rewrite slice_in_range by (unfold len in *; lia).
    replace (i + len substr - i) with (len substr) by lia.
    unfold len at 1. rewrite Nat2Z.id.
    destruct (String.eqb _ substr) eqn:Eq.
    + apply String.eqb_eq in Eq. exists true. split; [reflexivity|].
      split; [|reflexivity]. intros _. exists (Z.to_nat i).
      unfold len in *. split; [lia|]. split; [lia|exact Eq].
    + apply String.eqb_neq in Eq.
      destruct (IH (i + 1) ltac:(lia) ltac:(lia)) as (b & Hb & Hspec).
      exists b. split; [exact Hb|]. rewrite Hspec. split.
      * intros (j & H1 & H2 & H3). exists j. split; [lia|]. split; assumption.
      * intros (j & H1 & H2 & H3). exists j.
        split; [|split; assumption].
        destruct (Z.eq_dec (Z.of_nat j) i) as [Ej|Ej]; [|lia].
        exfalso. apply Eq. rewrite <- Ej, Nat2Z.id. exact H3.
  - apply Z.leb_gt in E. exists false. split; [reflexivity|].
    split; [discriminate|]. intros (j & H1 & H2 & _).
    unfold len in E. lia.
Qed.

Lemma containsHelper_returns (s substr : string) :
  exists b,
    containsHelper s substr = Ret b /\ (b = true <-> occurs substr s).
Proof.
  destruct (containsHelper_from_spec (S (S (String.length s))) s substr 0
              ltac:(lia) ltac:(unfold len; lia)) as (b & Hb & Hspec).
  exists b. split; [exact Hb|].
  rewrite Hspec, occurs_index. split.
  - intros (j & _ & H2 & H3). exists j. split; assumption.
  - intros (j & H2 & H3). exists j. split; [lia|]. split; assumption.
Qed.

Lemma occurs_length (substr s : string) :
  occurs substr s -> (String.length substr <= String.length s)%nat.
Proof. intros (pre & post & ->). rewrite !length_append. lia. Qed.

(** X2: containsHelper returns without a panic and without exhausting
    its fuel, true exactly when [substr] occurs in [s]; when [substr] is
    longer than [s] the bound of the loop is negative, the body is never
    entered and the result is false. *)
Theorem containsHelper_correct (s substr : string) :
  exists b,
    containsHelper s substr = Ret b
    /\ (b = true <-> occurs substr s)
    /\ (if len s <? len substr then b = false else True).
Proof.
  destruct (containsHelper_returns s substr) as (b & Hb & Hspec).
  exists b. split; [exact Hb|]. split; [exact Hspec|].
  destruct (len s <? len substr) eqn:E; [|exact I].
  apply Z.ltb_lt in E. destruct b; [|reflexivity].
  pose proof (occurs_length _ _ (proj1 Hspec eq_refl)). unfold len in E. lia.
Qed.

Lemma contains_returns (s substr : string) :
  exists b,
    contains s substr = Ret b /\ (b = true <-> occurs substr s).
Proof.
  unfold contains.
  destruct (len s >=? len substr) eqn:E1.
  2:{ exists false. split; [reflexivity|]. split; [discriminate|].
      intros H. apply occurs_index in H. destruct H as (j & Hj & _).
      rewrite Z.geb_leb in E1. apply Z.leb_gt in E1. unfold len in E1. lia. }
  rewrite Z.geb_leb in E1. apply Z.leb_le in E1.
  destruct (String.eqb s substr) eqn:E2.
  { apply String.eqb_eq in E2. subst. exists true. split; [reflexivity|].
    split; [|reflexivity]. intros _. exists EmptyString, EmptyString.
    simpl. now rewrite append_empty_r. }
  apply String.eqb_neq in E2.
  destruct (len s >? len substr) eqn:E3.
  2:{ exists false. split; [reflexivity|]. split; [discriminate|].
      intros (pre & post & Hs). exfalso. apply E2.
      rewrite Z.gtb_ltb in E3. apply Z.ltb_ge in E3.
      assert (L : String.length s = String.length substr) by (unfold len in *; lia).
      rewrite Hs, !length_append in L.
      destruct pre; [|simpl in L; lia]. destruct post; [|simpl in L; lia].
      rewrite Hs. simpl. apply append_empty_r. }
  rewrite Z.gtb_ltb in E3. apply Z.ltb_lt in E3.
  rewrite (slice_in_range s 0 (len substr)) by (unfold len in *; lia).
  rewrite (slice_in_range s (len s - len substr) (len s))
    by (unfold len in *; lia).
  replace (len s - (len s - len substr)) with (len substr) by lia.
  rewrite Z.sub_0_r. unfold len at 1 4. rewrite !Nat2Z.id.
  change (Z.to_nat 0) with 0%nat.
  destruct (String.eqb (substring 0 (String.length substr) s) substr) eqn:E4.
  { apply String.eqb_eq in E4. exists true. split; [reflexivity|].
    split; [|reflexivity]. intros _. apply occurs_index. exists 0%nat.
    unfold len in *. split; [lia|exact E4]. }
  destruct (String.eqb (substring (Z.to_nat (len s - len substr))
                          (String.length substr) s) substr) eqn:E5.
  { apply String.eqb_eq in E5. exists true. split; [reflexivity|].
    split; [|reflexivity]. intros _. apply occurs_index.
    exists (Z.to_nat (len s - len substr)).
    unfold len in *. split; [lia|exact E5]. }
  destruct (containsHelper_returns s substr) as (b & Hb & Hspec).
  exists b. split; assumption.
Qed.

(** X1: contains never panics and returns true exactly when [substr]
    occurs in [s]; so it is true for the empty [substr], whatever [s] is,
    and false for a [substr] longer than [s]. *)
Theorem contains_correct (s substr : string) :
  exists b,
    contains s substr = Ret b
    /\ (b = true <-> occurs substr s)
    /\ contains s EmptyString = Ret true
    /\ (if len s <? len substr then b = false else True).
Proof.
  destruct (contains_returns s substr) as (b & Hb & Hspec).
  exists b. split; [exact Hb|]. split; [exact Hspec|]. split.
  - destruct (contains_returns s EmptyString) as (b' & Hb' & Hspec').
    rewrite Hb'. f_equal. apply Hspec'. exists EmptyString, s. reflexivity.
  - destruct (len s <? len substr) eqn:E; [|exact I].
    apply Z.ltb_lt in E. destruct b; [|reflexivity].
    pose proof (occurs_length _ _ (proj1 Hspec eq_refl)). unfold len in E. lia.
Qed.

(** ** The tests of main_test.go *)

Ltac run_test :=
  cbv beta iota zeta delta
    [run_subtests run_subtests_r health_tests work_tests metrics_tests
     health_subtest work_subtest metrics_subtest bind ret
     httptest_NewRequest hc_method hc_expectedStatus hc_expectedBody
     mc_method mc_expectedStatus mc_contentType].

(** X3: when setupTestTelemetry succeeds, TestHealthHandler records no
    failure, whatever the world; when it fails the test stops in Fatalf
    before any handler runs. *)
Theorem TestHealthHandler_passes (env : Env) (g : Globals) (t : T) (w : World) :
  let out := TestHealthHandler env g t w in
  match fst (setupTestTelemetry env g) with
  | Some err =>
      fst (fst out) = t_Fatalf t "Failed to setup test telemetry: %v" [AErr err]
      /\ snd out = w
  | None =>
      fst (fst out) = t
      /\ List.length (spans (snd out)) = (2 + List.length (spans w))%nat
  end.
Proof.
  cbv zeta. unfold TestHealthHandler.
  destruct (setupTestTelemetry env g) as [[err|] g']; cbn [fst snd].
  - split; reflexivity.
  - run_test. rewrite healthHandler_run. cbn [fst snd].
    rewrite healthHandler_run. cbn [fst snd spans].
    split; [reflexivity|]. rewrite !length_app. simpl. lia.
Qed.

Lemma contains_true (s pre key post : string) :
  s = pre ++ key ++ post -> contains s key = Ret true.
Proof.
  intros H. destruct (contains_returns s key) as (b & Hb & Hspec).
  rewrite Hb. f_equal. apply Hspec. exists pre, post. exact H.
Qed.

Lemma metrics_body_contains (c m : float64) :
  contains (metrics_body c m) "cpu_usage" = Ret true
  /\ contains (metrics_body c m) "memory_usage" = Ret true
  /\ (len (metrics_body c m) =? 0) = false.
Proof.
  split; [|split].
  - apply (contains_true _ ("{" ++ dquote)
             _ (dquote ++ ": " ++ format2 c ++ body_middle ++ format2 m ++ "}")).
    reflexivity.
  - apply (contains_true _ (body_open ++ format2 c ++ ", " ++ dquote)
             _ (dquote ++ ": " ++ format2 m ++ "}")).
    rewrite metrics_body_parts, !append_assoc. reflexivity.
  - reflexivity.
Qed.

(** X4: when setupTestTelemetry succeeds, TestMetricsHandler returns
    without a panic and records no failure, whatever the two readings
    are: the status is 200, the Content-Type is application/json, the body
    is not empty and contains cpu_usage and memory_usage. *)
Theorem TestMetricsHandler_passes (env : Env) (g : Globals) (t : T) (w : World) :
  let out := TestMetricsHandler env g t w in
  match fst (setupTestTelemetry env g) with
  | Some err =>
      fst (fst out)
      = Ret (t_Fatalf t "Failed to setup test telemetry: %v" [AErr err])
      /\ snd out = w
  | None =>
      fst (fst out) = Ret t
      /\ rand_pos (snd out) = (2 + rand_pos w)%nat
  end.
Proof.
  cbv zeta. unfold TestMetricsHandler.
  destruct (setupTestTelemetry env g) as [[err|] g']; cbn [fst snd].
  - split; reflexivity.
  - run_test.
    pose proof (metricsHandler_run newRecorder
                  (mkRequest "GET" "/metrics" context_Background) w) as H.
    cbv zeta in H. rewrite H. cbn [fst snd rand_pos].
    set (c := fmul (Float64_of (draw w 0)) f100).
    set (m := fmul (fmul (fmul (Float64_of (draw w 1)) f1024) f1024) f1024).
    destruct (metrics_body_contains c m) as (H1 & H2 & H3).
    unfold check_contains, rec_Body, Write. cbn [rw_body WriteHeader Header_Set
      rw_sent rw_header newRecorder append].
    rewrite H1, H2, H3. split; reflexivity.
Qed.

Lemma failed_runs_bounds (w : World) (first n : nat) :
  0 <= failed_runs w first n <= Z.of_nat n.
Proof.
  revert first. induction n as [|n IH]; intros first; [simpl; lia|].
  cbn [failed_runs]. specialize (IH (S first)).
  destruct (draw w (5 * first + 4) mod 20 =? 0); lia.
Qed.

(** The runs seen from a world whose cursor is [k] runs further. *)
Lemma failed_runs_shift (w w' : World) (k first n : nat) :
  rand_src w' = rand_src w ->
  rand_pos w' = (5 * k + rand_pos w)%nat ->
  failed_runs w' first n = failed_runs w (k + first) n.
Proof.
  intros Hs Hp. revert first. induction n as [|n IH]; intros first;
    [reflexivity|].
  cbn [failed_runs]. rewrite IH.
  replace (k + S first)%nat with (S (k + first)) by lia.
  unfold draw. rewrite Hs, Hp.
  replace (5 * first + 4 + (5 * k + rand_pos w))%nat
    with (5 * (k + first) + 4 + rand_pos w)%nat by lia.
  reflexivity.
Qed.

Lemma work_runs_step (n : nat) (tc : WorkCase) (t : T) (s e : Z) (w : World) :
  wc_expectedStatus tc = [StatusOK; StatusInternalServerError] ->
  work_runs (S n) tc (t, s, e) w
  = work_runs n tc
      (if draw w 4 mod 20 =? 0 then (t, s, e + 1) else (t, s + 1, e))
      (snd (workHandler newRecorder (httptest_NewRequest (wc_method tc) "/work") w)).
Proof.
  intros Hx. cbn [work_runs]. unfold bind.
  pose proof (workHandler_run newRecorder
                (httptest_NewRequest (wc_method tc) "/work") w) as H.
  cbv zeta in H. rewrite H. clear H. rewrite Hx. cbn [snd].
  unfold work_write. destruct (draw w 4 mod 20 =? 0); reflexivity.
Qed.

Lemma workHandler_cursor (rw : ResponseWriter) (r : Request) (w : World) :
  rand_src (snd (workHandler rw r w)) = rand_src w
  /\ rand_pos (snd (workHandler rw r w)) = (5 + rand_pos w)%nat.
Proof.
  pose proof (workHandler_run rw r w) as H. cbv zeta in H. rewrite H.
  split; reflexivity.
Qed.

Lemma work_runs_spec (n : nat) (tc : WorkCase) (t : T) (s e : Z) (w : World) :
  wc_expectedStatus tc = [StatusOK; StatusInternalServerError] ->
  fst (work_runs n tc (t, s, e) w)
  = (t, s + (Z.of_nat n - failed_runs w 0 n), e + failed_runs w 0 n)
  /\ rand_src (snd (work_runs n tc (t, s, e) w)) = rand_src w
  /\ rand_pos (snd (work_runs n tc (t, s, e) w)) = (5 * n + rand_pos w)%nat.
Proof.
  intros Hx. revert t s e w. induction n as [|n IH]; intros t s e w.
  - cbn [work_runs failed_runs ret fst snd]. repeat split.
    apply pair_equal_spec; split; [apply pair_equal_spec; split|];
      (reflexivity || lia).
  - rewrite (work_runs_step n tc t s e w Hx).
    set (w1 := snd (workHandler newRecorder
                      (httptest_NewRequest (wc_method tc) "/work") w)).
    destruct (workHandler_cursor newRecorder
                (httptest_NewRequest (wc_method tc) "/work") w) as [Hs Hp].
    fold w1 in Hs, Hp.
    assert (Hf : failed_runs w1 0 n = failed_runs w 1 n).
    { apply (failed_runs_shift w w1 1 0 n); [exact Hs|]. rewrite Hp. lia. }
    cbn [failed_runs]. change (5 * 0 + 4)%nat with 4%nat.
    destruct (draw w 4 mod 20 =? 0).
    + destruct (IH t s (e + 1) w1) as (J1 & J2 & J3).
      rewrite J1, J2, J3, Hf, Hs, Hp.
      split; [|split; [reflexivity|lia]].
      apply pair_equal_spec; split; [apply pair_equal_spec; split|];
        (reflexivity || lia).
    + destruct (IH t (s + 1) e w1) as (J1 & J2 & J3).
      rewrite J1, J2, J3, Hf, Hs, Hp.
      split; [|split; [reflexivity|lia]].
      apply pair_equal_spec; split; [apply pair_equal_spec; split|];
        (reflexivity || lia).
Qed.

Lemma work_subtest_spec (tc : WorkCase) (t : T) (w : World) :
  wc_expectedStatus tc = [StatusOK; StatusInternalServerError] ->
  let f := failed_runs w 0 100 in
  fst (work_subtest tc t w)
  = mkT (t_errors t ++ no_success_error f)
        (t_logs t ++ no_error_warning f ++ [rate_report f])
        (t_fatal t)
  /\ rand_src (snd (work_subtest tc t w)) = rand_src w
  /\ rand_pos (snd (work_subtest tc t w)) = (500 + rand_pos w)%nat.
Proof.
  intros Hx f. unfold work_subtest, bind.
  change (Z.to_nat totalRuns) with 100%nat.
  destruct (work_runs_spec 100 tc t 0 0 w Hx) as (H1 & H2 & H3).
  pose proof (failed_runs_bounds w 0 100) as Hb.
  fold f in H1, Hb. clearbody f.
  destruct (work_runs 100 tc (t, 0, 0) w) as [[[t1 s1] e1] w1].
  cbn [fst snd] in H1, H2, H3. injection H1 as -> -> ->.
  cbn [ret fst snd]. split; [|split; [exact H2 | rewrite H3; reflexivity]].
  change (Z.of_nat 100) with 100 in *.
  unfold no_success_error, no_error_warning, rate_report, totalRuns.
  replace (0 + (100 - f)) with (100 - f) by lia.
  replace (0 + f) with f by lia.
  destruct (Z.eqb_spec f 0); destruct (Z.eqb_spec f 100);
    destruct (Z.eqb_spec (100 - f) 0); try lia;
    repeat (unfold t_Logf, t_Log, t_Error, t_Errorf;
            cbn [t_errors t_logs t_fatal]);
    rewrite ?app_nil_r, <- ?app_assoc; reflexivity.
Qed.

(** X5: when setupTestTelemetry succeeds, the checks inside the loops of
    TestWorkHandler never fail; each of its two subtests makes 100 runs
    and counts 100 - f successes and f errors, where f is the number of
    its runs whose outcome draw is 0; the only failure a subtest can
    record is "No successful requests in 100 runs", exactly when all of
    its 100 runs drew the 500 outcome. *)
Theorem TestWorkHandler_outcome (env : Env) (g : Globals) (t : T) (w : World) :
  let out := TestWorkHandler env g t w in
  let f1 := failed_runs w 0 100 in
  let f2 := failed_runs w 100 100 in
  match fst (setupTestTelemetry env g) with
  | Some err =>
      fst (fst out) = t_Fatalf t "Failed to setup test telemetry: %v" [AErr err]
      /\ snd out = w
  | None =>
      0 <= f1 <= 100 /\ 0 <= f2 <= 100
      /\ t_errors (fst (fst out))
         = (t_errors t ++ no_success_error f1 ++ no_success_error f2)%list
      /\ t_logs (fst (fst out))
         = (t_logs t ++ no_error_warning f1 ++ [rate_report f1]
            ++ no_error_warning f2 ++ [rate_report f2])%list
      /\ t_fatal (fst (fst out)) = t_fatal t
      /\ rand_pos (snd out) = (1000 + rand_pos w)%nat
  end.
Proof.
  cbv zeta. unfold TestWorkHandler.
  destruct (setupTestTelemetry env g) as [[err|] g']; cbn [fst snd].
  - split; reflexivity.
  - split; [apply (failed_runs_bounds w 0 100)|].
    split; [apply (failed_runs_bounds w 100 100)|].
    unfold work_tests. cbn [run_subtests]. cbv beta delta [bind ret].
    destruct (work_subtest_spec
                (mkWorkCase "GET work endpoint" "GET"
                   [StatusOK; StatusInternalServerError]) t w eq_refl)
      as (A1 & A2 & A3).
    destruct (work_subtest _ t w) as [t1 w1]. cbn [fst snd] in A1, A2, A3.
    destruct (work_subtest_spec
                (mkWorkCase "POST work endpoint" "POST"
                   [StatusOK; StatusInternalServerError]) t1 w1 eq_refl)
      as (B1 & B2 & B3).
    destruct (work_subtest _ t1 w1) as [t2 w2]. cbn [fst snd] in B1, B2, B3.
    cbn [fst snd].
    assert (Hf : failed_runs w1 0 100 = failed_runs w 100 100).
    { apply (failed_runs_shift w w1 100 0 100); [exact A2|]. rewrite A3. lia. }
    rewrite Hf in B1. subst t2 t1. cbn [t_errors t_logs t_fatal].
    rewrite B3, A3, <- !app_assoc.
    split; [reflexivity|]. split; [reflexivity|]. split; [reflexivity|lia].
Qed.

(** ** Growth of the world *)

Lemma count_events_app (p : MetricEvent -> bool) (a b : list MetricEvent) :
  count_events p (a ++ b) = (count_events p a + count_events p b)%nat.
Proof. unfold count_events. now rewrite filter_app, length_app. Qed.

Lemma grows_refl (w : World) : grows w w 0 0 0.
Proof.
  unfold grows. split; [reflexivity|]. split; [reflexivity|].
  split; [exists []; rewrite app_nil_r; repeat split; constructor|].
  split; [exists []; rewrite app_nil_r; repeat split|].
  split; [exists []; now rewrite app_nil_r | lia].
Qed.

Lemma grows_trans (w1 w2 w3 : World) (s1 d1 r1 s2 d2 r2 : nat) :
  grows w1 w2 s1 d1 r1 -> grows w2 w3 s2 d2 r2 ->
  grows w1 w3 (s1 + s2) (d1 + d2) (r1 + r2).
Proof.
  intros (A1 & A2 & (n1 & A3 & A4 & A5) & (e1 & A6 & A7 & A8 & A9)
          & (l1 & A10) & A11)
         (B1 & B2 & (n2 & B3 & B4 & B5) & (e2 & B6 & B7 & B8 & B9)
          & (l2 & B10) & B11).
  unfold grows.
  split; [congruence|]. split; [lia|].
  split.
  { exists (n1 ++ n2)%list. rewrite B3, A3, <- app_assoc, length_app.
    split; [reflexivity|]. split; [lia|]. apply Forall_app. split; assumption. }
  split.
  { exists (e1 ++ e2)%list.
    rewrite B6, A6, <- app_assoc, length_app, !count_events_app.
    split; [reflexivity|]. split; [lia|]. split; lia. }
  split; [|lia].
  exists (l1 ++ l2)%list. now rewrite B10, A10, <- app_assoc.
Qed.

Lemma grows_health (rw : ResponseWriter) (r : Request) (w : World) :
  grows w (snd (healthHandler rw r w)) 1 0 1.
Proof.
  rewrite healthHandler_run. unfold grows. cbn [snd rand_src rand_pos spans
    metric_log log_lines clock].
  split; [reflexivity|]. split; [reflexivity|].
  split; [eexists; split; [reflexivity|]; split; [reflexivity|];
          repeat constructor|].
  split; [eexists; split; [reflexivity|]; repeat split|].
  split; [exists []; now rewrite app_nil_r | lia].
Qed.

Lemma grows_work (rw : ResponseWriter) (r : Request) (w : World) :
  grows w (snd (workHandler rw r w)) 2 5 1.
Proof.
  pose proof (workHandler_run rw r w) as H. cbv zeta in H. rewrite H.
  unfold grows. cbn [snd rand_src rand_pos spans metric_log log_lines clock].
  split; [reflexivity|]. split; [reflexivity|].
  split; [eexists; split; [reflexivity|]; split; [reflexivity|];
          repeat constructor|].
  split; [eexists; split; [reflexivity|]; repeat split|].
  split; [eexists; reflexivity | lia].
Qed.

Lemma grows_metrics (rw : ResponseWriter) (r : Request) (w : World) :
  grows w (snd (metricsHandler rw r w)) 1 2 1.
Proof.
  pose proof (metricsHandler_run rw r w) as H. cbv zeta in H. rewrite H.
  unfold grows. cbn [snd rand_src rand_pos spans metric_log log_lines clock].
  split; [reflexivity|]. split; [reflexivity|].
  split; [eexists; split; [reflexivity|]; split; [reflexivity|];
          repeat constructor|].
  split; [eexists; split; [reflexivity|]; repeat split|].
  split; [exists []; now rewrite app_nil_r | lia].
Qed.

Lemma bench_runs_grows (h : Handler) (ns nd : nat) (req : Request) (n : nat)
    (w : World) :
  (forall rw r w0, grows w0 (snd (h rw r w0)) ns nd 1) ->
  grows w (snd (bench_runs h req n w)) (n * ns) (n * nd) n.
Proof.
  intros Hh. revert w. induction n as [|n IH]; intros w.
  - apply grows_refl.
  - cbn [bench_runs]. unfold bind.
    pose proof (Hh newRecorder req w) as H1.
    destruct (h newRecorder req w) as [rw1 w1]. cbn [snd] in H1.
    pose proof (grows_trans _ _ _ _ _ _ _ _ _ H1 (IH w1)) as H2.
    replace (S n * ns)%nat with (ns + n * ns)%nat by lia.
    replace (S n * nd)%nat with (nd + n * nd)%nat by lia.
    exact H2.
Qed.

(** X7: when setupTestTelemetry succeeds, a benchmark of b.N iterations
    records no failure and extends the world by b.N increments of
    http_requests_total and b.N observations of
    http_request_duration_seconds and no other emission; it appends b.N
    ended spans (2 b.N for the work handler) and makes 0, 5 b.N and 2 b.N
    draws for health, work and metrics. *)
Theorem benchmarks_grow (env : Env) (g : Globals) (b : T) (bN : nat) (w : World) :
  match fst (setupTestTelemetry env g) with
  | Some err =>
      BenchmarkHealthHandler env g b bN w
      = (t_Fatalf b "Failed to setup test telemetry: %v" [AErr err],
         snd (setupTestTelemetry env g), w)
      /\ BenchmarkWorkHandler env g b bN w
         = BenchmarkHealthHandler env g b bN w
      /\ BenchmarkMetricsHandler env g b bN w
         = BenchmarkHealthHandler env g b bN w
  | None =>
      fst (fst (BenchmarkHealthHandler env g b bN w)) = b
      /\ fst (fst (BenchmarkWorkHandler env g b bN w)) = b
      /\ fst (fst (BenchmarkMetricsHandler env g b bN w)) = b
      /\ grows w (snd (BenchmarkHealthHandler env g b bN w)) bN 0 bN
      /\ grows w (snd (BenchmarkWorkHandler env g b bN w)) (2 * bN) (5 * bN) bN
      /\ grows w (snd (BenchmarkMetricsHandler env g b bN w)) bN (2 * bN) bN
  end.
Proof.
  unfold BenchmarkHealthHandler, BenchmarkWorkHandler, BenchmarkMetricsHandler,
    Benchmark.
  destruct (setupTestTelemetry env g) as [[err|] g']; cbn [fst snd].
  - repeat split.
  - unfold bind, ret.
    pose proof (bench_runs_grows healthHandler 1 0
                  (httptest_NewRequest "GET" "/health") bN w grows_health) as H1.
    pose proof (bench_runs_grows workHandler 2 5
                  (httptest_NewRequest "GET" "/work") bN w grows_work) as H2.
    pose proof (bench_runs_grows metricsHandler 1 2
                  (httptest_NewRequest "GET" "/metrics") bN w grows_metrics) as H3.
    destruct (bench_runs healthHandler _ bN w) as [[] w1].
    destruct (bench_runs workHandler _ bN w) as [[] w2].
    destruct (bench_runs metricsHandler _ bN w) as [[] w3].
    cbn [fst snd] in *.
    replace (bN * 1)%nat with bN in * by lia.
    replace (bN * 0)%nat with 0%nat in * by lia.
    replace (bN * 2)%nat with (2 * bN)%nat in * by lia.
    replace (bN * 5)%nat with (5 * bN)%nat in * by lia.
    split; [reflexivity|]. split; [reflexivity|]. split; [reflexivity|].
    split; [exact H1|]. split; [exact H2|exact H3].
Qed.

Lemma ServeHTTP_grows (r : Request) (w : World) :
  grows w (snd (ServeHTTP registered r w)) (spans_opened r) (draws_used r)
        (routed r).
Proof.
  unfold ServeHTTP, spans_opened, draws_used, routed.
  destruct (route_cases (r_Path r)) as [[P E]|[[P E]|[[P E]|[P1 [P2 [P3 E]]]]]];
    rewrite E.
  - rewrite P. cbn [String.eqb Ascii.eqb Bool.eqb]. unfold bind, ret.
    pose proof (grows_health newRecorder r w) as H.
    destruct (healthHandler newRecorder r w). exact H.
  - rewrite P. cbn [String.eqb Ascii.eqb Bool.eqb]. unfold bind, ret.
    pose proof (grows_work newRecorder r w) as H.
    destruct (workHandler newRecorder r w). exact H.
  - rewrite P. cbn [String.eqb Ascii.eqb Bool.eqb]. unfold bind, ret.
    pose proof (grows_metrics newRecorder r w) as H.
    destruct (metricsHandler newRecorder r w). exact H.
  - apply String.eqb_neq in P1, P2, P3. rewrite P1, P2, P3.
    apply grows_refl.
Qed.

(** X8: for every sequence of requests served through the mux, telemetry
    only grows: each request to /health, /work or /metrics appends its
    one or two spans, all ended when the handler returns, and exactly one
    increment of http_requests_total and one observation of
    http_request_duration_seconds; a request to any other path appends
    nothing and makes no draw; no earlier span, emission or log line is
    changed or removed. *)
Theorem serve_all_grows (reqs : list Request) (w : World) :
  grows w (snd (serve_all registered reqs w))
        (sum_over spans_opened reqs) (sum_over draws_used reqs)
        (sum_over routed reqs)
  /\ List.length (fst (serve_all registered reqs w)) = List.length reqs.
Proof.
  revert w. induction reqs as [|r t IH]; intros w.
  - split; [apply grows_refl | reflexivity].
  - cbn [serve_all sum_over fold_right]. unfold bind, ret.
    pose proof (ServeHTTP_grows r w) as H1.
    destruct (ServeHTTP registered r w) as [resp w1]. cbn [snd] in H1.
    destruct (IH w1) as [H2 H3].
    destruct (serve_all registered t w1) as [rest w2]. cbn [fst snd] in *.
    split; [|simpl; now rewrite H3].
    exact (grows_trans _ _ _ _ _ _ _ _ _ H1 H2).
Qed.

(** ** TestSimulateWork *)

(** One round of the loop: a span is started, annotated by simulateWork
    and ended. *)
Lemma simulate_round_grows (w : World) :
  let round :=
    (cs <- tracer_Start context_Background "test_span" ;;
     let '(ctx, span) := cs in
     simulateWork ctx ;; span_End span)%go in
  grows w (snd (round w)) 1 2 0.
Proof.
  cbv zeta. unfold bind at 1. unfold tracer_Start at 1. cbv beta iota.
  unfold bind at 1.
  rewrite (simulateWork_run (mkCtx (Some (List.length (spans w))))).
  cbv beta iota zeta. unfold span_End, set_spans.
  cbn [snd spans rand_src rand_pos clock metric_log log_lines ctx_span].
  rewrite !alter_app_here.
  unfold grows. cbn [rand_src rand_pos spans metric_log log_lines clock].
  split; [reflexivity|]. split; [reflexivity|].
  split.
  { eexists. split; [reflexivity|]. split; [reflexivity|].
    constructor; [|constructor]. unfold end_span. reflexivity. }
  split; [exists []; rewrite app_nil_r; repeat split|].
  split; [eexists; reflexivity | lia].
Qed.

Lemma simulate_runs_grows (n : nat) (w : World) :
  grows w (snd (simulate_runs n w)) n (2 * n) 0.
Proof.
  revert w. induction n as [|n IH]; intros w.
  - apply grows_refl.
  - pose proof (simulate_round_grows w) as H1. cbv zeta in H1.
    cbn [simulate_runs].
    assert (E : forall w0,
      (cs <- tracer_Start context_Background "test_span" ;;
       let '(ctx, span) := cs in
       simulateWork ctx ;; span_End span ;; simulate_runs n)%go w0
      = simulate_runs n
          (snd ((cs <- tracer_Start context_Background "test_span" ;;
                 let '(ctx, span) := cs in
                 simulateWork ctx ;; span_End span)%go w0))).
    { intros w0. unfold bind, tracer_Start. cbv beta iota.
      destruct (simulateWork _ _) as [[] wa].
      destruct (span_End _ wa) as [[] wb]. reflexivity. }
    rewrite E.
    pose proof (grows_trans _ _ _ _ _ _ _ _ _ H1 (IH _)) as H2.
    replace (2 * S n)%nat with (2 + 2 * n)%nat by lia.
    exact H2.
Qed.

Lemma simulate_subtest_run (t : T) (w : World) :
  let n0 := draw w 0 mod 500 in
  let w1 :=
    mkWorld (rand_src w) (2 + rand_pos w) (clock w + n0 * 1000000)
      (spans w ++ [mkSpan "test_span" None (work_attrs n0 (draw w 1 mod 10))
                     false])
      (metric_log w)
      (log_lines w ++
       (if draw w 1 mod 10 =? 0 then ["Simulated error occurred"] else [])) in
  let w2 := snd (simulate_runs 50 w1) in
  simulate_subtest t w
  = (if n0 =? 0 then t_Error t "simulateWork should take some time" else t,
     mkWorld (rand_src w2) (rand_pos w2) (clock w2)
       (alter end_span (List.length (spans w)) (spans w2))
       (metric_log w2) (log_lines w2)).
Proof.
  cbv zeta. unfold simulate_subtest, bind, tracer_Start, time_Now, time_Since.
  cbv beta iota.
  rewrite (simulateWork_run (mkCtx (Some (List.length (spans w))))).
  cbv beta iota zeta. cbn [ctx_span spans rand_src rand_pos clock metric_log
    log_lines]. rewrite alter_app_here.
  unfold draw. cbn [rand_src rand_pos Nat.add].
  set (n0 := rand_src w (rand_pos w) mod 500).
  pose proof (Intn_range (rand_src w (rand_pos w)) 500 ltac:(lia)) as Hn.
  fold n0 in Hn.
  destruct (sampled_duration n0 Hn) as [Hd Hms].
  rewrite Hms, Hd.
  replace (Z.max (n0 * 1000000) 0) with (n0 * 1000000) by lia.
  replace (clock w + n0 * 1000000 - clock w) with (n0 * 1000000) by lia.
  unfold add_attrs. cbn [span_ended span_name span_parent span_attrs app
    context_Background ctx_span].
  destruct (simulate_runs 50 _) as [[] w2]. cbn [snd].
  unfold span_End, set_spans, ret. cbn [fst snd]. f_equal.
  unfold Millisecond.
  replace (n0 * 1000000 >? 600 * 1000000) with false
    by (symmetry; rewrite Z.gtb_ltb; apply Z.ltb_ge; lia).
  destruct (Z.eqb_spec n0 0) as [E|E].
  - rewrite E. reflexivity.
  - replace (n0 * 1000000 <? 1000000) with false
      by (symmetry; apply Z.ltb_ge; lia).
    reflexivity.
Qed.

Lemma simulate_subtest_spec (t : T) (w : World) :
  fst (simulate_subtest t w)
  = (if draw w 0 mod 500 =? 0
     then t_Error t "simulateWork should take some time" else t)
  /\ grows w (snd (simulate_subtest t w)) 51 102 0.
Proof.
  pose proof (simulate_subtest_run t w) as H. cbv zeta in H. rewrite H.
  clear H. cbn [fst snd]. split; [reflexivity|].
  match goal with
  | |- context [simulate_runs 50 ?x] => set (w1 := x)
  end.
  pose proof (simulate_runs_grows 50 w1) as G.
  set (w2 := snd (simulate_runs 50 w1)) in *. clearbody w2.
  destruct G as (G1 & G2 & (new & G3 & G4 & G5) & (ev & G6 & G7 & _)
                 & (l & G8) & G9).
  pose proof (Intn_range (draw w 0) 500 ltac:(lia)) as Hn.
  unfold grows. cbn [rand_src rand_pos spans metric_log log_lines clock].
  subst w1. cbn [rand_src rand_pos spans metric_log log_lines clock] in *.
  split; [exact G1|]. split; [rewrite G2; lia|].
  split.
  { rewrite G3, <- app_assoc. cbn [app]. rewrite alter_app_here.
    eexists. split; [reflexivity|]. split; [simpl; rewrite G4; reflexivity|].
    constructor; [reflexivity | exact G5]. }
  split.
  { exists []. rewrite G6. destruct ev; [|discriminate G7].
    repeat split. }
  split; [|lia].
  rewrite G8, <- app_assoc. eexists. reflexivity.
Qed.

(** X6: when setupTestTelemetry succeeds, TestSimulateWork makes 51 calls
    of simulateWork (102 draws) on 51 spans that are all ended when it
    returns. With a clock that only time.Sleep moves, the measured
    duration is the sampled one, so the check "took too long" never
    fails and the check "should take some time" fails exactly when the
    first duration draw is 0 milliseconds. *)
Theorem TestSimulateWork_outcome (env : Env) (g : Globals) (t : T) (w : World) :
  let out := TestSimulateWork env g t w in
  match fst (setupTestTelemetry env g) with
  | Some err =>
      fst (fst out) = t_Fatalf t "Failed to setup test telemetry: %v" [AErr err]
      /\ snd out = w
  | None =>
      fst (fst out)
      = (if draw w 0 mod 500 =? 0
         then t_Error t "simulateWork should take some time" else t)
      /\ grows w (snd out) 51 102 0
  end.
Proof.
  cbv zeta. unfold TestSimulateWork.
  destruct (setupTestTelemetry env g) as [[err|] g']; cbn [fst snd].
  - split; reflexivity.
  - unfold bind, ret. destruct (simulate_subtest_spec t w) as [H1 H2].
    destruct (simulate_subtest t w) as [t1 w1]. cbn [fst snd] in *.
    split; assumption.
Qed.

(** ** Tags *)

(** X9: for a request that the mux routes, the two emissions are tagged
    with the method of the request, with its path as endpoint, and the
    counter with the decimal status code of the response that was
    written; a request that is not routed emits nothing. *)
Theorem tags_match_request_and_response (r : Request) (w : World) :
  let out := ServeHTTP registered r w in
  match mux_handler registered (r_Path r) with
  | Some _ =>
      exists elapsed,
        emitted w (snd out)
        = [CounterAdd requestCounter 1
             [("method", VString (r_Method r));
              ("endpoint", VString (r_Path r));
              ("status", VString (Itoa (resp_status (fst out))))];
           HistRecord requestDuration elapsed
             [("method", VString (r_Method r));
              ("endpoint", VString (r_Path r))]]
  | None => emitted w (snd out) = [] /\ snd out = w
  end.
Proof.
  cbv zeta. unfold ServeHTTP.
  destruct (route_cases (r_Path r)) as [[P E]|[[P E]|[[P E]|[_ [_ [_ E]]]]]];
    rewrite E; unfold bind, ret.
  - rewrite healthHandler_run. cbn [fst snd]. rewrite P. eexists.
    apply emitted_app. reflexivity.
  - pose proof (workHandler_run newRecorder r w) as H. cbv zeta in H.
    rewrite H. cbn [fst snd]. rewrite P. eexists.
    apply emitted_app. cbn [metric_log]. unfold work_write, work_status.
    destruct (draw w 4 mod 20 =? 0); reflexivity.
  - pose proof (metricsHandler_run newRecorder r w) as H. cbv zeta in H.
    rewrite H. cbn [fst snd]. rewrite P. eexists.
    apply emitted_app. reflexivity.
  - cbn [snd]. split; [|reflexivity]. unfold emitted. apply drop_all.
Qed.

(** ** Start-up, step by step *)

(** X10: the error of initTelemetry is the error of the first step that
    fails, in the order resource, trace exporter, metric exporter,
    counter, histogram, wrapped with the prefix of that step; main then
    logs "Failed to initialize telemetry: <prefix>: <cause>" and nothing
    else. *)
Theorem initTelemetry_reports_first_failure (env : Env) (g : Globals) :
  match first_failure (init_steps env) with
  | Some (prefix, cause) =>
      fst (initTelemetry env g) = Some (Errorf prefix cause)
      /\ (passed (init_steps env) < 5)%nat
      /\ nth_error (init_steps env) (passed (init_steps env))
         = Some (prefix, Some cause)
      /\ p_log (snd (main env))
         = ["Failed to initialize telemetry: " ++ prefix ++ ": "
            ++ error_string cause]
  | None =>
      fst (initTelemetry env g) = None /\ passed (init_steps env) = 5%nat
  end.
Proof.
  unfold main, initTelemetry, init_steps.
  destruct env as [e1 e2 e3 e4 e5 port listen].
  cbn [env_resource_New env_otlptracehttp_New env_otlpmetrichttp_New
       env_Int64Counter env_Float64Histogram].
  destruct e1; [cbn; repeat split; lia|].
  destruct e2; [cbn; repeat split; lia|].
  destruct e3; [cbn; repeat split; lia|].
  destruct e4; [cbn; repeat split; lia|].
  destruct e5; [cbn; repeat split; lia|].
  cbn. split; reflexivity.
Qed.


(** X12: setupTestTelemetry returns the error of the first of its three
    steps (resource, counter, histogram) that fails, as the library gave
    it, without a prefix; when none fails it leaves the two instruments of
    the program, a tracer and a meter of scope test-app, and both
    providers installed; it never installs a propagator. *)
Theorem setupTestTelemetry_outcome (env : Env) (g : Globals) :
  let g' := snd (setupTestTelemetry env g) in
  fst (setupTestTelemetry env g) = snd <$> first_failure (setup_steps env)
  /\ g_propagator g' = g_propagator g
  /\ match first_failure (setup_steps env) with
     | Some _ => (passed (setup_steps env) < 3)%nat
     | None =>
         g_tracer g' = Some (mkScope "test-app" EmptyString)
         /\ g_meter g' = Some (mkScope "test-app" EmptyString)
         /\ g_requestCounter g' = Some requestCounter
         /\ g_requestDuration g' = Some requestDuration
         /\ g_tracerProvider g' = true
         /\ g_meterProvider g' = true
     end
  /\ (if Nat.eqb (passed (setup_steps env)) 0 then g' = g else True).
Proof.
  cbv zeta. unfold setupTestTelemetry, setup_steps.
  destruct env as [e1 e2 e3 e4 e5 port listen].
  cbn [env_resource_New env_Int64Counter env_Float64Histogram].
  destruct e1; [cbn; repeat split; lia|].
  destruct e4; [cbn; repeat split; lia|].
  destruct e5; cbn; repeat split; lia.
Qed.

(** X13: TestInitTelemetryWithoutExporter depends on what ran before it:
    it fails on the zero globals; after setupTestTelemetry it fails
    exactly when resource.New failed there, and after initTelemetry
    exactly when one of the first three steps failed. *)
Theorem TestInitTelemetryWithoutExporter_needs_earlier_setup (env : Env) (t : T) :
  let failure := mkReport "tracer should be initialized" [] in
  TestInitTelemetryWithoutExporter zero_globals t
  = mkT (t_errors t ++ [failure]) (t_logs t) (t_fatal t)
  /\ TestInitTelemetryWithoutExporter (snd (setupTestTelemetry env zero_globals)) t
     = (if Nat.leb 1 (passed (setup_steps env)) then t
        else mkT (t_errors t ++ [failure]) (t_logs t) (t_fatal t))
  /\ TestInitTelemetryWithoutExporter (snd (initTelemetry env zero_globals)) t
     = (if Nat.leb 3 (passed (init_steps env)) then t
        else mkT (t_errors t ++ [failure]) (t_logs t) (t_fatal t)).
Proof.
  cbv zeta. unfold TestInitTelemetryWithoutExporter, setupTestTelemetry,
    initTelemetry, setup_steps, init_steps.
  destruct env as [e1 e2 e3 e4 e5 port listen].
  cbn [env_resource_New env_otlptracehttp_New env_otlpmetrichttp_New
       env_Int64Counter env_Float64Histogram].
  split; [reflexivity|].
  destruct e1, e2, e3, e4, e5; cbn; split; reflexivity.
Qed.

(** ** The load generator against the service *)

Lemma ENDPOINT_cases (previous : string) (RANDOM : Z) :
  0 <= RANDOM ->
  ENDPOINT_of previous RANDOM = "/health"
  \/ ENDPOINT_of previous RANDOM = "/work"
  \/ ENDPOINT_of previous RANDOM = "/metrics".
Proof.
  intros H. unfold ENDPOINT_of. cbv zeta.
  pose proof (Z.rem_bound_pos RANDOM 3 H ltac:(lia)) as Hr.
  destruct (Z.eqb_spec (Z.rem RANDOM 3) 0); [auto|].
  destruct (Z.eqb_spec (Z.rem RANDOM 3) 1); [auto|].
  destruct (Z.eqb_spec (Z.rem RANDOM 3) 2); [auto|]. lia.
Qed.

Lemma routed_status (r : Request) (w : World) :
  mux_handler registered (r_Path r) <> None ->
  resp_status (fst (ServeHTTP registered r w)) = 200
  \/ resp_status (fst (ServeHTTP registered r w)) = 500.
Proof.
  intros Hr. unfold ServeHTTP.
  destruct (route_cases (r_Path r)) as [[P E]|[[P E]|[[P E]|[_ [_ [_ E]]]]]];
    rewrite E; unfold bind, ret.
  - rewrite healthHandler_run. left. reflexivity.
  - pose proof (workHandler_response r w) as H.
    destruct (workHandler newRecorder r w) as [rw w1]. cbn [fst] in *.
    rewrite H. unfold work_response.
    destruct (draw w 4 mod 20 =? 0); [right|left]; reflexivity.
  - pose proof (metricsHandler_response r w) as H.
    destruct (metricsHandler newRecorder r w) as [rw w1]. cbn [fst] in *.
    rewrite H. left. reflexivity.
  - congruence.
Qed.

(** X14: in every round of the load generator the delay is between 1 and
    5 seconds and the endpoint is one of the three paths that main
    registers, whatever ENDPOINT was before; the values 0, 1, 2 of
    RANDOM reach the three registered paths in order; and the status of
    the service's response to that request is 200 or 500, so the test for
    an unexpected response code is false for it. *)
Theorem load_generator_round
    (previous : string) (RANDOM1 RANDOM2 : Z) (w : World) :
  0 <= RANDOM1 <= 32767 ->
  0 <= RANDOM2 <= 32767 ->
  let DELAY := DELAY_of RANDOM1 in
  let ENDPOINT := ENDPOINT_of previous RANDOM2 in
  let resp := fst (ServeHTTP registered (curl_request ENDPOINT) w) in
  1 <= DELAY <= 5
  /\ In ENDPOINT (map fst registered)
  /\ ENDPOINT = ENDPOINT_of EmptyString RANDOM2
  /\ map (ENDPOINT_of previous) [0; 1; 2] = map fst registered
  /\ (resp_status resp = 200 \/ resp_status resp = 500)
  /\ unexpected_code (http_code resp) = false.
Proof.
  intros H1 H. cbv zeta.
  pose proof (Z.rem_bound_pos RANDOM1 5 ltac:(lia) ltac:(lia)) as H5.
  split; [unfold DELAY_of; lia|].
  assert (Hin : In (ENDPOINT_of previous RANDOM2) (map fst registered)).
  { destruct (ENDPOINT_cases previous RANDOM2 ltac:(lia)) as [E|[E|E]];
      rewrite E; simpl; auto. }
  split; [exact Hin|].
  split.
  { unfold ENDPOINT_of. cbv zeta.
    pose proof (Z.rem_bound_pos RANDOM2 3 ltac:(lia) ltac:(lia)) as Hr.
    destruct (Z.eqb_spec (Z.rem RANDOM2 3) 0); [reflexivity|].
    destruct (Z.eqb_spec (Z.rem RANDOM2 3) 1); [reflexivity|].
    destruct (Z.eqb_spec (Z.rem RANDOM2 3) 2); [reflexivity|]. lia. }
  split; [reflexivity|].
  assert (Hs : resp_status (fst (ServeHTTP registered
                 (curl_request (ENDPOINT_of previous RANDOM2)) w)) = 200
               \/ resp_status (fst (ServeHTTP registered
                 (curl_request (ENDPOINT_of previous RANDOM2)) w)) = 500).
  { apply routed_status. cbn [curl_request r_Path].
    destruct (ENDPOINT_cases previous RANDOM2 ltac:(lia)) as [E|[E|E]];
      rewrite E; discriminate. }
  split; [exact Hs|].
  unfold http_code. destruct Hs as [Hs|Hs]; rewrite Hs; reflexivity.
Qed.

Lemma load_generator_round_witness :
  0 <= 12345 <= 32767
  /\ 0 <= 20000 <= 32767
  /\ DELAY_of 12345 = 1
  /\ ENDPOINT_of "/health" 20000 = "/metrics"
  /\ unexpected_code
       (http_code (fst (ServeHTTP registered
                          (curl_request (ENDPOINT_of "/health" 20000))
                          (fresh_world (fun _ => 0))))) = false.
Proof.
  split; [lia|]. split; [lia|].
  pose proof (load_generator_round "/health" 12345 20000
                (fresh_world (fun _ => 0)) ltac:(lia) ltac:(lia)) as H.
  cbv zeta in H. destruct H as (_ & _ & _ & _ & _ & H).
  split; [reflexivity|]. split; [reflexivity|]. exact H.
Defined.

(** ** create-secret.sh *)

(** X15: create-secret.sh ends with status 0 exactly when kubectl is
    found, the cluster answers, an existing secret (if any) was deleted,
    a non-empty key was read and kubectl create succeeded. It runs
    kubectl create only with the key that was read, and never with an
    empty one. It deletes an existing secret before it asks for the new
    key: when the key then is empty or cannot be read, the run has
    deleted the secret, created none and ends with status 1. *)
Theorem create_secret_sh_outcome (env : SecretEnv) :
  let steps := fst (create_secret_sh env) in
  let status := snd (create_secret_sh env) in
  let checks := sh_command_v_kubectl env && sh_cluster_info env in
  let key_ok :=
    match sh_read env with
    | Some k => negb (String.eqb k EmptyString)
    | None => false
    end in
  let deleted := sh_get_secret env && (sh_delete_status env =? 0) in
  (status = 0 <->
   checks = true
   /\ (sh_get_secret env = false \/ sh_delete_status env = 0)
   /\ key_ok = true
   /\ sh_create_status env = 0)
  /\ (existsb is_delete steps = checks && sh_get_secret env)
  /\ (existsb is_create steps
      = checks && (negb (sh_get_secret env) || (sh_delete_status env =? 0))
        && key_ok)
  /\ (forall k, In (KubectlCreateSecret k) steps ->
                sh_read env = Some k /\ k <> EmptyString)
  /\ (if checks && deleted && negb key_ok
      then existsb is_delete steps = true
           /\ existsb is_create steps = false
           /\ status = 1
      else True).
Proof.
  cbv zeta. unfold create_secret_sh.
  destruct env as [cv ci gs ds rd cs].
  cbn [sh_command_v_kubectl sh_cluster_info sh_get_secret sh_delete_status
       sh_read sh_create_status].
  destruct cv, ci, gs; destruct (Z.eqb_spec ds 0) as [Ed|Ed];
    (destruct rd as [k|];
     [destruct (String.eqb_spec k EmptyString) as [Ek|Ek]|]);
    destruct (Z.eqb_spec cs 0) as [Ec|Ec];
    cbn; repeat split; intros;
    try reflexivity; try discriminate; try assumption;
    try solve [intuition (try discriminate; try congruence; try lia)].
Qed.
